(** * claude-hud: activity-state classifier and cost tracker

    A shallow embedding of the activity classifiers of the statusline
    renderer and of the cost tracker, together with the properties the
    specification states about them.

    Three classifiers live in the repository:
    - [Tamagotchi]  src/render/animation-line.ts  ([detectActivityState], 3 s window)
    - [Spinner]     unnamed/part_005              ([detectActivityState], 2 s window)
    - [Mesmeric]    unnamed/part_001              ([detectMesmericMode],  3 s window)

    Beside them: [Elapsed] (the elapsed time that goes with a start
    time), [HudConfig] (tui/src/lib/hud-config.ts, the configuration file
    and its cached reader), [EventParser] (unnamed/part_004, the lines
    of the event stream) and [Index] (unnamed/part_002, the lines that
    are printed).

    JavaScript values are modelled as the language defines them: numbers are
    IEEE-754 binary64 (the kernel's primitive floats), strings are sequences
    of code units (here the 8-bit ones, U+0000..U+00FF), [Date]s are
    millisecond time values, optional fields are [option]s. *)

From Stdlib Require Import ZArith QArith Qround Floats String Ascii List Bool Lia.
From stdpp Require Import base option list gmap strings.
Import ListNotations.

Local Open Scope string_scope.
Local Open Scope Z_scope.

(* ===================================================================== *)
(** * The JavaScript runtime the code relies on *)
(* ===================================================================== *)

Module JS.

(** ** Strings *)

(** [String.prototype.toLowerCase] on one code unit of U+0000..U+00FF:
    A-Z and the Latin-1 capitals U+00C0..U+00DE (except the
    multiplication sign U+00D7) move up by 32. *)
Definition lowerUnit (c : ascii) : ascii :=
  let n := nat_of_ascii c in
  if ((65 <=? n)%nat && (n <=? 90)%nat)
     || ((192 <=? n)%nat && (n <=? 222)%nat && negb (n =? 215)%nat)
  then ascii_of_nat (n + 32)
  else c.

Fixpoint toLowerCase (s : string) : string :=
  match s with
  | EmptyString => EmptyString
  | String c s' => String (lowerUnit c) (toLowerCase s')
  end.

(** [String.prototype.includes]: [sub] occurs in [s] at some position. *)
Fixpoint includes (s sub : string) : bool :=
  match s with
  | EmptyString => String.prefix sub EmptyString
  | String _ s' => String.prefix sub s || includes s' sub
  end.

(** [String.prototype.slice(start, end)]: a negative index counts from
    the end, both are clamped to the string, and an empty span gives
    the empty string. *)
Definition clampIndex (len i : Z) : Z :=
  if i <? 0 then Z.max (len + i) 0 else Z.min i len.

Definition slice (s : string) (start end_ : Z) : string :=
  let len := Z.of_nat (String.length s) in
  let from := clampIndex len start in
  let to := clampIndex len end_ in
  String.substring (Z.to_nat from) (Z.to_nat (Z.max (to - from) 0)) s.

(** A value is truthy unless it is absent or the empty string. *)
Definition truthyString (o : option string) : option string :=
  match o with
  | Some EmptyString => None
  | _ => o
  end.

(** ** Dates *)

(** A [Date] holds a time value in milliseconds since the epoch, or is
    an invalid date, whose [getTime()] is NaN. *)
Inductive Date : Type :=
| MkDate (ms : Z)
| InvalidDate.

Definition getTime (d : Date) : option Z :=
  match d with
  | MkDate ms => Some ms
  | InvalidDate => None
  end.

(** [now - d.getTime() < bound]: false when the difference is NaN. *)
Definition elapsedBelow (now : Z) (d : Date) (bound : Z) : bool :=
  match getTime d with
  | Some t => now - t <? bound
  | None => false
  end.

(** ** Numbers *)

(** The exact value of a finite double with significand [m] and
    exponent [e]. *)
Definition valueQ (m : positive) (e : Z) : Q :=
  (inject_Z (Z.pos m) * Qpower 2 e)%Q.

(** An integer of magnitude below 2^53 as the double it is. *)
Definition ofZ (z : Z) : float :=
  SF2Prim (binary_normalize 53 1024 z 0 false).

(** [Math.round]: the integral number closest to [x], a tie going
    towards +infinity; NaN, the infinities, the zeros and integral
    values are returned as they are; a result of zero keeps the sign
    of [x]. Computed as floor(x + 1/2) in exact arithmetic. *)
Definition Math_round (x : float) : float :=
  match Prim2SF x with
  | S754_finite s m e =>
      if 0 <=? e then x
      else
        let d := Z.pow 2 (- e) in
        let n := if s then Z.neg m else Z.pos m in
        let z := (2 * n + d) / (2 * d) in
        if z =? 0 then SF2Prim (S754_zero s) else ofZ z
  | _ => x
  end.

(** [!x] for a number: zero (of either sign) and NaN are falsy. *)
Definition falsyNumber (x : float) : bool :=
  PrimFloat.eqb x 0 || PrimFloat.is_nan x.

(** *** Number::toString, radix 10 *)

Definition digitChar (d : Z) : ascii := ascii_of_nat (48 + Z.to_nat d).

Fixpoint digitsFuel (fuel : nat) (z : Z) (acc : string) : string :=
  match fuel with
  | O => acc
  | S fuel' =>
      let acc' := String (digitChar (z mod 10)) acc in
      if z <? 10 then acc' else digitsFuel fuel' (z / 10) acc'
  end.

(** The decimal digits of a non-negative integer. *)
Definition digits (z : Z) : string :=
  digitsFuel (S (Z.to_nat (Z.log2 z))) z EmptyString.

Fixpoint zeros (n : nat) : string :=
  match n with
  | O => EmptyString
  | S n' => String "0"%char (zeros n')
  end.

(** The interval of reals that round to the positive finite double [x]:
    its ends are the midpoints to the neighbouring doubles, and belong
    to it when the significand of [x] is even. *)
Definition finiteQ (x : float) : option Q :=
  match Prim2SF x with
  | S754_zero _ => Some 0%Q
  | S754_finite s m e => Some (if s then - valueQ m e else valueQ m e)%Q
  | _ => None
  end.

Definition roundsTo (m : positive) (e : Z) (d : Q) : bool :=
  let x := valueQ m e in
  let below := match finiteQ (next_down (SF2Prim (S754_finite false m e))) with
               | Some q => q
               | None => x
               end in
  let lo := ((below + x) / 2)%Q in
  let hi := match finiteQ (next_up (SF2Prim (S754_finite false m e))) with
            | Some q => ((x + q) / 2)%Q
            | None => (x + (x - below) / 2)%Q
            end in
  match (lo ?= d)%Q, (d ?= hi)%Q with
  | Lt, Lt => true
  | Eq, _ | _, Eq => Z.even (Z.pos m)
  | _, _ => false
  end.

(** The [n] with 10^(n-1) <= x < 10^n, searched downwards from [hi]. *)
Fixpoint decimalExponent (fuel : nat) (hi : Z) (x : Q) : Z :=
  match fuel with
  | O => hi
  | S fuel' =>
      if Qle_bool (Qpower 10 (hi - 1)) x then hi
      else decimalExponent fuel' (hi - 1) x
  end.

(** The [k]-digit candidates [(s, n)], [s * 10^(n-k)] rounding to [x],
    the closest to [x] first (of two equally close ones, the even). *)
Definition candidates (m : positive) (e : Z) (n0 k : Z) : list (Z * Z) :=
  let x := valueQ m e in
  let unit := Qpower 10 (n0 - k) in
  let s1 := Qfloor (x / unit) in
  let norm (s : Z) := if s =? 10 ^ k then (10 ^ (k - 1), n0 + 1) else (s, n0) in
  let ok (s : Z) := roundsTo m e (inject_Z s * unit) in
  let d1 := (x - inject_Z s1 * unit)%Q in
  let d2 := (inject_Z (s1 + 1) * unit - x)%Q in
  let firstLow := match (d1 ?= d2)%Q with
                  | Lt => true
                  | Eq => Z.even s1
                  | Gt => false
                  end in
  let ordered := if firstLow then [s1; s1 + 1] else [s1 + 1; s1] in
  List.map norm (List.filter ok ordered).

Fixpoint shortest (fuel : nat) (m : positive) (e : Z) (n0 k : Z) : Z * Z * Z :=
  match fuel with
  | O => (0, n0, k)
  | S fuel' =>
      match candidates m e n0 k with
      | (s, n) :: _ => (s, n, k)
      | [] => shortest fuel' m e n0 (k + 1)
      end
  end.

Definition formatPositive (m : positive) (e : Z) : string :=
  let n0 := decimalExponent 640 310 (valueQ m e) in
  let '(s, n, k) := shortest 17 m e n0 1 in
  let ds := digits s in
  if (k <=? n) && (n <=? 21) then
    ds ++ zeros (Z.to_nat (n - k))
  else if (0 <? n) && (n <=? 21) then
    String.substring 0 (Z.to_nat n) ds ++ "." ++
    String.substring (Z.to_nat n) (Z.to_nat (k - n)) ds
  else if (-6 <? n) && (n <=? 0) then
    "0." ++ zeros (Z.to_nat (- n)) ++ ds
  else
    let ex := n - 1 in
    let mant := if k =? 1 then ds
                else String.substring 0 1 ds ++ "." ++
                     String.substring 1 (Z.to_nat (k - 1)) ds in
    mant ++ "e" ++ (if ex <? 0 then "-" else "+") ++ digits (Z.abs ex).

(** What a template literal [`${x}`] prints for a number. *)
Definition numberToString (x : float) : string :=
  match Prim2SF x with
  | S754_nan => "NaN"
  | S754_zero _ => "0"
  | S754_infinity s => if s then "-Infinity" else "Infinity"
  | S754_finite s m e => (if s then "-" else EmptyString) ++ formatPositive m e
  end.

End JS.

(* ===================================================================== *)
(** * The session snapshot *)
(* ===================================================================== *)

(** The declarations of src/types.ts ([RenderContext], [ToolEntry],
    [AgentEntry], [TodoItem], the stdin payload) are not among the source
    files. The records below hold the fields the classifiers read, with
    the types section 3 of the specification gives them. *)

(** Modelled from the spec: the [status] of a tool or agent entry
    (src/types.ts is missing), "one of {running, completed}". *)
Inductive RunStatus : Type := running | completed.

#[global] Instance RunStatus_eq_dec : EqDecision RunStatus.
Proof. solve_decision. Defined.

Module ToolEntry.
(** Modelled from the spec: [ToolEntry] (src/types.ts is missing). *)
Record t : Type := mk {
  name : string;
  target : option string;
  status : RunStatus;
  startTime : JS.Date;
  endTime : option JS.Date
}.
End ToolEntry.

Module AgentEntry.
(** Modelled from the spec: [AgentEntry] (src/types.ts is missing). *)
Record t : Type := mk {
  type : string;
  description : option string;
  status : RunStatus;
  startTime : JS.Date
}.
End AgentEntry.

Module TodoItem.
(** Modelled from the spec: the [status] of a todo item (src/types.ts is
    missing). *)
Inductive Status : Type := pending | in_progress | completed.

#[global] Instance Status_eq_dec : EqDecision Status.
Proof. solve_decision. Defined.

(** Modelled from the spec: [TodoItem] (src/types.ts is missing). *)
Record t : Type := mk {
  content : string;
  status : Status
}.
End TodoItem.

(** Modelled from the spec: the context usage of the stdin payload
    (src/types.ts is missing), with the field names [getContextPercent]
    reads; each count may be absent. *)
Record Usage : Type := {
  input_tokens : option float;
  cache_creation_input_tokens : option float;
  cache_read_input_tokens : option float
}.

(** Modelled from the spec: [stdin.context_window] (src/types.ts is
    missing). *)
Record ContextWindow : Type := {
  current_usage : option Usage;
  context_window_size : option float
}.

(** Modelled from the spec: the stdin payload (src/types.ts is missing),
    of which the classifiers read the context window only. *)
Record Stdin : Type := {
  context_window : option ContextWindow
}.

(** Modelled from the spec: [ctx.transcript] (src/types.ts is missing). *)
Record Transcript : Type := {
  tools : list ToolEntry.t;
  agents : list AgentEntry.t;
  todos : list TodoItem.t
}.

(** Modelled from the spec: [RenderContext] (src/types.ts is missing). *)
Record RenderContext : Type := {
  stdin : Stdin;
  transcript : Transcript
}.

(** The predicates of the arrow functions passed to [find], [filter] and
    [every]. *)
Definition toolHas (s : RunStatus) (t : ToolEntry.t) : bool :=
  bool_decide (ToolEntry.status t = s).

Definition agentHas (s : RunStatus) (a : AgentEntry.t) : bool :=
  bool_decide (AgentEntry.status a = s).

Definition todoHas (s : TodoItem.Status) (t : TodoItem.t) : bool :=
  bool_decide (TodoItem.status t = s).

(* ===================================================================== *)
(** * Helpers the three files define identically *)
(* ===================================================================== *)

(** [getContextPercent] (animation-line.ts:133, part_005:119,
    part_001:347). *)
Definition getContextPercent (ctx : RenderContext) : float :=
  let usage := context_window (stdin ctx) ≫= current_usage in
  let size := context_window (stdin ctx) ≫= context_window_size in
  match usage, size with
  | Some usage, Some size =>
      if JS.falsyNumber size then 0%float
      else
        let totalTokens :=
          (default 0 (input_tokens usage)
           + default 0 (cache_creation_input_tokens usage)
           + default 0 (cache_read_input_tokens usage))%float in
        JS.Math_round (totalTokens / size * 100)%float
  | _, _ => 0%float
  end.

(** [truncate] (animation-line.ts:148, part_005:134, part_001:386). *)
Definition truncate (text : string) (maxLen : Z) : string :=
  if Z.of_nat (String.length text) <=? maxLen then text
  else JS.slice text 0 (maxLen - 3) ++ "...".

(** [getToolDetail] (animation-line.ts:123, part_005:109; part_001:413
    has the same expression inline). *)
Definition getToolDetail (tool : ToolEntry.t) : string :=
  match JS.truthyString (ToolEntry.target tool) with
  | Some target => truncate target 25
  | None => ToolEntry.name tool
  end.

(** [a.description || a.type]. *)
Definition agentLabel (a : AgentEntry.t) : string :=
  match JS.truthyString (AgentEntry.description a) with
  | Some d => d
  | None => AgentEntry.type a
  end.

(** The last completed tool, when it carries an [endTime] less than
    [window] milliseconds before [now]: the nested conditionals of the
    "recent completion" step, shared by the three classifiers up to the
    window and to the entries the last one is taken from. *)
Definition recentCompletion (now window : Z) (completedTools : list ToolEntry.t)
  : option ToolEntry.t :=
  mostRecent ← last completedTools;
  e ← ToolEntry.endTime mostRecent;
  if JS.elapsedBelow now e window then Some mostRecent else None.

(** [lastTool?.endTime] within ten seconds of [now]. *)
Definition lastToolRecent (now : Z) (tools : list ToolEntry.t) : bool :=
  match last tools ≫= ToolEntry.endTime with
  | Some e => JS.elapsedBelow now e 10000
  | None => false
  end.

(* ===================================================================== *)
(** * src/render/animation-line.ts *)
(* ===================================================================== *)

Module Tamagotchi.

(** [ActivityState] as this file's animations module declares it
    (unnamed/part_003). *)
Inductive ActivityState : Type :=
| idle | sleeping | thinking | reading | writing | searching
| agent | bash | fetch | pressure | success.

Record Activity : Type := {
  state : ActivityState;
  detail : string;
  startTime : option JS.Date
}.

Definition getToolState (tool : ToolEntry.t) : ActivityState :=
  let name := JS.toLowerCase (ToolEntry.name tool) in
  if JS.includes name "read" || JS.includes name "glob" || String.eqb name "ls"
  then reading
  else if JS.includes name "write" || JS.includes name "edit"
          || JS.includes name "multiedit" || JS.includes name "notebook"
  then writing
  else if JS.includes name "grep" || JS.includes name "search" || JS.includes name "find"
  then searching
  else if JS.includes name "bash" || JS.includes name "shell" || JS.includes name "exec"
  then bash
  else if JS.includes name "fetch" || JS.includes name "web" || JS.includes name "http"
  then fetch
  else if JS.includes name "task" || JS.includes name "agent"
  then agent
  else thinking.

(** The steps of [detectActivityState] that follow the check for a recent
    completion (lines 61-89): all todos completed, a todo in progress,
    recent history, and the terminal fallback. *)
Definition afterRecentCompletion (now : Z) (ctx : RenderContext) : Activity :=
  let tools := tools (transcript ctx) in
  let agents := agents (transcript ctx) in
  let todos := todos (transcript ctx) in
  if (0 <? length todos)%nat && forallb (todoHas TodoItem.completed) todos then
    {| state := success; detail := "All tasks done!"; startTime := None |}
  else
  match List.find (todoHas TodoItem.in_progress) todos with
  | Some inProgressTodo =>
      {| state := thinking;
         detail := truncate (TodoItem.content inProgressTodo) 25;
         startTime := None |}
  | None =>
  if (0 <? length tools)%nat || (0 <? length agents)%nat then
    if lastToolRecent now tools then
      {| state := thinking; detail := "Processing..."; startTime := None |}
    else
      {| state := idle; detail := "Ready"; startTime := None |}
  else
    {| state := sleeping; detail := "Waiting for input"; startTime := None |}
  end.

(** [detectActivityState] (lines 12-90); [now] is the value of
    [Date.now()]. *)
Definition detectActivityState (now : Z) (ctx : RenderContext) : Activity :=
  let tools := tools (transcript ctx) in
  let agents := agents (transcript ctx) in
  let contextPercent := getContextPercent ctx in
  if (90 <=? contextPercent)%float then
    {| state := pressure;
       detail := JS.numberToString contextPercent ++ "% context used";
       startTime := None |}
  else
  match List.find (agentHas running) agents with
  | Some runningAgent =>
      {| state := agent;
         detail := truncate (agentLabel runningAgent) 30;
         startTime := Some (AgentEntry.startTime runningAgent) |}
  | None =>
  match last (List.filter (toolHas running) tools) with
  | Some tool =>
      {| state := getToolState tool;
         detail := getToolDetail tool;
         startTime := Some (ToolEntry.startTime tool) |}
  | None =>
  match recentCompletion now 3000 (List.filter (toolHas completed) tools) with
  | Some mostRecent =>
      {| state := success;
         detail := ToolEntry.name mostRecent ++ " complete!";
         startTime := None |}
  | None => afterRecentCompletion now ctx
  end end end.

End Tamagotchi.

(* ===================================================================== *)
(** * unnamed/part_005: the single-line animation with a spinner *)
(* ===================================================================== *)

Module Spinner.

(** [ActivityState] as this file's animations module declares it
    (dist/render/animations.d.ts): no [sleeping], but [progress]. *)
Inductive ActivityState : Type :=
| idle | thinking | reading | writing | searching
| agent | bash | fetch | pressure | progress | success.

Record Activity : Type := {
  state : ActivityState;
  detail : string;
  startTime : option JS.Date
}.

Definition getToolState (tool : ToolEntry.t) : ActivityState :=
  let name := JS.toLowerCase (ToolEntry.name tool) in
  if JS.includes name "read" || JS.includes name "glob" || JS.includes name "ls"
  then reading
  else if JS.includes name "write" || JS.includes name "edit"
          || JS.includes name "multiedit"
  then writing
  else if JS.includes name "grep" || JS.includes name "search" || JS.includes name "find"
  then searching
  else if JS.includes name "bash" || JS.includes name "shell" || JS.includes name "exec"
  then bash
  else if JS.includes name "fetch" || JS.includes name "web" || JS.includes name "http"
  then fetch
  else if JS.includes name "task" || JS.includes name "agent"
  then agent
  else thinking.

(** [Array.prototype.slice(-3)]: the last three elements. *)
Definition lastThree {A : Type} (l : list A) : list A :=
  drop (length l - 3)%nat l.

(** An array length in a template literal. *)
Definition count (n : nat) : string := JS.numberToString (JS.ofZ (Z.of_nat n)).

Definition detectActivityState (now : Z) (ctx : RenderContext) : Activity :=
  let tools := tools (transcript ctx) in
  let agents := agents (transcript ctx) in
  let todos := todos (transcript ctx) in
  let contextPercent := getContextPercent ctx in
  if (90 <=? contextPercent)%float then
    {| state := pressure;
       detail := JS.numberToString contextPercent ++ "% context used";
       startTime := None |}
  else
  match List.find (agentHas running) agents with
  | Some runningAgent =>
      {| state := agent;
         detail := truncate (agentLabel runningAgent) 30;
         startTime := Some (AgentEntry.startTime runningAgent) |}
  | None =>
  match last (List.filter (toolHas running) tools) with
  | Some tool =>
      {| state := getToolState tool;
         detail := getToolDetail tool;
         startTime := Some (ToolEntry.startTime tool) |}
  | None =>
  match List.find (todoHas TodoItem.in_progress) todos with
  | Some inProgressTodo =>
      let completed := length (List.filter (todoHas TodoItem.completed) todos) in
      let total := length todos in
      {| state := progress;
         detail := count completed ++ "/" ++ count total ++ " tasks";
         startTime := None |}
  | None =>
  match recentCompletion now 2000
          (lastThree (List.filter (toolHas completed) tools)) with
  | Some mostRecent =>
      {| state := success;
         detail := ToolEntry.name mostRecent ++ " done!";
         startTime := None |}
  | None =>
  if (0 <? length todos)%nat && forallb (todoHas TodoItem.completed) todos then
    {| state := success; detail := "All tasks complete!"; startTime := None |}
  else
  if (0 <? length tools)%nat || (0 <? length agents)%nat then
    {| state := thinking; detail := "Processing..."; startTime := None |}
  else
    {| state := idle; detail := "Waiting for input"; startTime := None |}
  end end end end.

End Spinner.

(* ===================================================================== *)
(** * unnamed/part_001: the wave visualizer *)
(* ===================================================================== *)

Module Mesmeric.

Inductive MesmericMode : Type :=
| IDLE | SCAN | BUILD | CRUNCH | SUCCESS | SLEEP | PRESSURE.

Record Detected : Type := {
  mode : MesmericMode;
  detail : string
}.

Definition getToolMode (tool : ToolEntry.t) : MesmericMode :=
  let name := JS.toLowerCase (ToolEntry.name tool) in
  if JS.includes name "read" || JS.includes name "glob" || String.eqb name "ls"
  then SCAN
  else if JS.includes name "write" || JS.includes name "edit"
          || JS.includes name "multiedit" || JS.includes name "notebook"
  then BUILD
  else if JS.includes name "grep" || JS.includes name "search" || JS.includes name "find"
  then SCAN
  else if JS.includes name "bash" || JS.includes name "shell" || JS.includes name "exec"
  then CRUNCH
  else if JS.includes name "fetch" || JS.includes name "web" || JS.includes name "http"
  then SCAN
  else if JS.includes name "task" || JS.includes name "agent"
  then CRUNCH
  else BUILD.

(** The steps of [detectMesmericMode] that follow the check for a recent
    completion (lines 429-453). *)
Definition afterRecentCompletion (now : Z) (ctx : RenderContext) : Detected :=
  let tools := tools (transcript ctx) in
  let agents := agents (transcript ctx) in
  let todos := todos (transcript ctx) in
  if (0 <? length todos)%nat && forallb (todoHas TodoItem.completed) todos then
    {| mode := SUCCESS; detail := "All tasks done!" |}
  else
  match List.find (todoHas TodoItem.in_progress) todos with
  | Some inProgressTodo =>
      {| mode := BUILD; detail := truncate (TodoItem.content inProgressTodo) 25 |}
  | None =>
  if (0 <? length tools)%nat || (0 <? length agents)%nat then
    if lastToolRecent now tools then
      {| mode := IDLE; detail := "Thinking..." |}
    else
      {| mode := IDLE; detail := "Ready" |}
  else
    {| mode := SLEEP; detail := "Waiting for input" |}
  end.

(** [detectMesmericMode] (lines 391-454). *)
Definition detectMesmericMode (now : Z) (ctx : RenderContext) : Detected :=
  let tools := tools (transcript ctx) in
  let agents := agents (transcript ctx) in
  let contextPercent := getContextPercent ctx in
  if (90 <=? contextPercent)%float then
    {| mode := PRESSURE;
       detail := JS.numberToString contextPercent ++ "% context" |}
  else
  match List.find (agentHas running) agents with
  | Some runningAgent =>
      {| mode := CRUNCH; detail := truncate (agentLabel runningAgent) 25 |}
  | None =>
  match last (List.filter (toolHas running) tools) with
  | Some tool =>
      {| mode := getToolMode tool; detail := getToolDetail tool |}
  | None =>
  match recentCompletion now 3000 (List.filter (toolHas completed) tools) with
  | Some _ =>
      {| mode := SUCCESS; detail := "Complete!" |}
  | None => afterRecentCompletion now ctx
  end end end.

End Mesmeric.


(* ===================================================================== *)
(** * The tool-name table of the specification *)
(* ===================================================================== *)

(** Section 4.1, rule 3, as the specification words it: an ordered list of
    rules, each a set of keywords and the category it selects, the first
    rule with a matching keyword winning, and a fallback. It is compared
    with the conditionals of [getToolState] and [getToolMode] below. *)
Module ToolTable.

Inductive Keyword : Type :=
| Contains (kw : string)
| Equals (kw : string).

Inductive Category : Type :=
| Reading | Writing | Searching | Bash | Fetch | Agent | Thinking.

Definition matches (name : string) (k : Keyword) : bool :=
  match k with
  | Contains kw => JS.includes name kw
  | Equals kw => String.eqb name kw
  end.

Fixpoint firstMatch (rules : list (list Keyword * Category)) (name : string)
  : Category :=
  match rules with
  | [] => Thinking
  | (kws, c) :: rest =>
      if existsb (matches name) kws then c else firstMatch rest name
  end.

Definition rules : list (list Keyword * Category) :=
  [ ([Contains "read"; Contains "glob"; Equals "ls"], Reading);
    ([Contains "write"; Contains "edit"; Contains "multiedit";
      Contains "notebook"], Writing);
    ([Contains "grep"; Contains "search"; Contains "find"], Searching);
    ([Contains "bash"; Contains "shell"; Contains "exec"], Bash);
    ([Contains "fetch"; Contains "web"; Contains "http"], Fetch);
    ([Contains "task"; Contains "agent"], Agent) ].

(** The rules without the keyword "notebook". *)
Definition rulesWithoutNotebook : list (list Keyword * Category) :=
  [ ([Contains "read"; Contains "glob"; Equals "ls"], Reading);
    ([Contains "write"; Contains "edit"; Contains "multiedit"], Writing);
    ([Contains "grep"; Contains "search"; Contains "find"], Searching);
    ([Contains "bash"; Contains "shell"; Contains "exec"], Bash);
    ([Contains "fetch"; Contains "web"; Contains "http"], Fetch);
    ([Contains "task"; Contains "agent"], Agent) ].

(** The category of a tool: its name is compared in lower case. *)
Definition categoryOf (rs : list (list Keyword * Category)) (tool : ToolEntry.t)
  : Category :=
  firstMatch rs (JS.toLowerCase (ToolEntry.name tool)).

(** The two names of each category: the activity state of the animation
    line and the mode of the wave visualizer. *)
Definition state (c : Category) : Tamagotchi.ActivityState :=
  match c with
  | Reading => Tamagotchi.reading
  | Writing => Tamagotchi.writing
  | Searching => Tamagotchi.searching
  | Bash => Tamagotchi.bash
  | Fetch => Tamagotchi.fetch
  | Agent => Tamagotchi.agent
  | Thinking => Tamagotchi.thinking
  end.

Definition spinnerState (c : Category) : Spinner.ActivityState :=
  match c with
  | Reading => Spinner.reading
  | Writing => Spinner.writing
  | Searching => Spinner.searching
  | Bash => Spinner.bash
  | Fetch => Spinner.fetch
  | Agent => Spinner.agent
  | Thinking => Spinner.thinking
  end.

Definition mode (c : Category) : Mesmeric.MesmericMode :=
  match c with
  | Reading => Mesmeric.SCAN
  | Writing => Mesmeric.BUILD
  | Searching => Mesmeric.SCAN
  | Bash => Mesmeric.CRUNCH
  | Fetch => Mesmeric.SCAN
  | Agent => Mesmeric.CRUNCH
  | Thinking => Mesmeric.BUILD
  end.

End ToolTable.

(** The percentage of section 3 as the specification writes it,
    [round(100 * (input + cacheCreation + cacheRead) / size)], on the same
    doubles and with the defaults of the code. *)
Definition specContextPercent (ctx : RenderContext) : float :=
  let usage := context_window (stdin ctx) ≫= current_usage in
  let size := context_window (stdin ctx) ≫= context_window_size in
  match usage, size with
  | Some usage, Some size =>
      if JS.falsyNumber size then 0%float
      else
        JS.Math_round
          (100 * (default 0 (input_tokens usage)
                  + default 0 (cache_creation_input_tokens usage)
                  + default 0 (cache_read_input_tokens usage)) / size)%float
  | _, _ => 0%float
  end.

(* ===================================================================== *)
(** * tui/src/lib/cost-tracker.ts *)
(* ===================================================================== *)

Module CostTracker.

(** tui/src/lib/cost-tracker.ts ([CostTracker], [mergePricing],
    [isPricingStale]) is not among the source files; only its test and
    the configuration reader that builds the partial pricing table are.
    The definitions follow section 4.2 of the specification. Pricing
    tables are allocated in a store, so that "the same table" and "a new
    table" can be told apart. *)

(** Modelled from the spec: the rates of one model family, per million
    tokens (cost-tracker.ts is missing). *)
Record Rates : Type := {
  input : float;
  output : float
}.

(** Modelled from the spec: the pricing table [PricingConfig]
    (cost-tracker.ts is missing). *)
Record PricingConfig : Type := {
  sonnet : Rates;
  opus : Rates;
  haiku : Rates;
  lastUpdated : string
}.

(** [Partial<PricingConfig>] as [normalizePricing] of hud-config.ts builds
    it: a family is present with both of its rates or not at all. *)
Module Partial.
Record t : Type := {
  sonnet : option Rates;
  opus : option Rates;
  haiku : option Rates;
  lastUpdated : option string
}.
End Partial.

(** References to pricing tables, and the store they point into. *)
Definition loc : Type := positive.
Abbreviation store := (gmap positive PricingConfig).

(** Modelled from the spec: the table [mergePricing] produces when an
    override is present. *)
Definition merged (base : PricingConfig) (override : Partial.t) : PricingConfig :=
  {| sonnet := default (sonnet base) (Partial.sonnet override);
     opus := default (opus base) (Partial.opus override);
     haiku := default (haiku base) (Partial.haiku override);
     lastUpdated := default (lastUpdated base) (Partial.lastUpdated override) |}.

(** Modelled from the spec: [mergePricing(base, override?)]. Without an
    override the reference [base] itself is returned and nothing is
    allocated; with one, a new table is allocated. [None] stands for a
    [base] that points nowhere, which no live reference does. *)
Definition mergePricing (h : store) (base : loc) (override : option Partial.t)
  : option (store * loc) :=
  match override with
  | None => Some (h, base)
  | Some o =>
      b ← h !! base;
      let r := fresh (dom h) in
      Some (<[r := merged b o]> h, r)
  end.

Definition msPerDay : Z := 86400000.
Definition stalenessThresholdDays : Z := 90.

(** The specification asks for token estimates "rounded consistently"
    and names no direction: the tracker is modelled for each of them. *)
Inductive Rounding : Type := Down | Up | Nearest.

Section Collaborators.

(** The platform's date parser, the time value of a date string in
    milliseconds, [None] when the string does not parse; the structured
    objects of an event and their canonical text form; the direction in
    which token estimates are rounded. *)
Variable parseDate : string -> option Z.
Context {JsonObject : Type}.
Variable serialize : JsonObject -> string.
Variable rounding : Rounding.

(** Modelled from the spec: [isPricingStale(dateString)], with the
    current time [now] as a parameter. *)
Definition isPricingStale (now : Z) (dateString : string) : bool :=
  match parseDate dateString with
  | Some parsed => stalenessThresholdDays * msPerDay <? now - parsed
  | None => true
  end.

(** The event record, with the fields [parseHudEvent] (unnamed/part_004)
    fills in and the tracker reads. *)
Record HudEvent : Type := {
  event : string;
  tool : option string;
  eventInput : option JsonObject;
  response : option JsonObject;
  prompt : option string
}.

(** Modelled from the spec: the state of a [CostTracker]
    (cost-tracker.ts is missing); [pricing] refers to the active table. *)
Record Tracker : Type := {
  inputTokens : Z;
  outputTokens : Z;
  model : string;
  pricing : loc
}.

Definition charsPerToken : Z := 4.

(** Modelled from the spec: the token estimate of a text, its character
    count over [charsPerToken], rounded. *)
Definition estimateTokens (text : string) : Z :=
  let chars := Z.of_nat (String.length text) in
  match rounding with
  | Down => chars / charsPerToken
  | Up => (chars + charsPerToken - 1) / charsPerToken
  | Nearest => (2 * chars + charsPerToken) / (2 * charsPerToken)
  end.

Definition addInput (n : Z) (t : Tracker) : Tracker :=
  {| inputTokens := inputTokens t + n;
     outputTokens := outputTokens t;
     model := model t;
     pricing := pricing t |}.

Definition addOutput (n : Z) (t : Tracker) : Tracker :=
  {| inputTokens := inputTokens t;
     outputTokens := outputTokens t + n;
     model := model t;
     pricing := pricing t |}.

(** Modelled from the spec: [processEvent(event)]. *)
Definition processEvent (e : HudEvent) (t : Tracker) : Tracker :=
  if String.eqb (event e) "PostToolUse" then
    let t1 := match eventInput e with
              | Some i => addInput (estimateTokens (serialize i)) t
              | None => t
              end in
    match response e with
    | Some r => addOutput (estimateTokens (serialize r)) t1
    | None => t1
    end
  else if String.eqb (event e) "UserPromptSubmit" then
    match prompt e with
    | Some p => addInput (estimateTokens p) t
    | None => t
    end
  else t.

(** Modelled from the spec: [setModel(modelIdentifier)]. *)
Definition setModel (m : string) (t : Tracker) : Tracker :=
  {| inputTokens := inputTokens t;
     outputTokens := outputTokens t;
     model := m;
     pricing := pricing t |}.

(** Modelled from the spec: [reset()]. *)
Definition reset (t : Tracker) : Tracker :=
  {| inputTokens := 0;
     outputTokens := 0;
     model := model t;
     pricing := pricing t |}.

(** Modelled from the spec: [setPricing(partialTable)], which merges the
    partial table into the active one. *)
Definition setPricing (p : Partial.t) (s : store * Tracker) : option (store * Tracker) :=
  '(h', r) ← mergePricing (fst s) (pricing (snd s)) (Some p);
  Some (h', {| inputTokens := inputTokens (snd s);
               outputTokens := outputTokens (snd s);
               model := model (snd s);
               pricing := r |}).

(** Modelled from the spec: the operations of section 4.2 that change a
    tracker (cost-tracker.ts is missing), one step of them and a run. *)
Inductive Op : Type :=
| ProcessEvent (e : HudEvent)
| SetModel (m : string)
| SetPricing (p : Partial.t)
| Reset.

Definition step (o : Op) (s : store * Tracker) : option (store * Tracker) :=
  match o with
  | ProcessEvent e => Some (fst s, processEvent e (snd s))
  | SetModel m => Some (fst s, setModel m (snd s))
  | SetPricing p => setPricing p s
  | Reset => Some (fst s, reset (snd s))
  end.

Fixpoint run (ops : list Op) (s : store * Tracker) : option (store * Tracker) :=
  match ops with
  | [] => Some s
  | o :: rest => step o s ≫= run rest
  end.

Definition isReset (o : Op) : bool :=
  match o with
  | Reset => true
  | _ => false
  end.

(** A tracker whose pricing reference is live. *)
Definition live (s : store * Tracker) : Prop :=
  is_Some (fst s !! pricing (snd s)).

(** Neither counter of [b] is below that of [a]. *)
Definition countersLe (a b : Tracker) : Prop :=
  inputTokens a <= inputTokens b /\ outputTokens a <= outputTokens b.

End Collaborators.

(** A parser for the date-only form YYYY-MM-DD (UTC midnight), used to
    run the examples: days since the epoch by the civil-calendar
    formula. *)
Definition digitValue (c : ascii) : option Z :=
  let n := Z.of_nat (nat_of_ascii c) in
  if (48 <=? n) && (n <=? 57) then Some (n - 48) else None.

Fixpoint number (acc : Z) (s : string) : option Z :=
  match s with
  | EmptyString => Some acc
  | String c s' => d ← digitValue c; number (10 * acc + d) s'
  end.

Definition daysFromCivil (y m d : Z) : Z :=
  let y' := if m <=? 2 then y - 1 else y in
  let era := y' / 400 in
  let yoe := y' - era * 400 in
  let doy := (153 * (if 2 <? m then m - 3 else m + 9) + 2) / 5 + d - 1 in
  let doe := yoe * 365 + yoe / 4 - yoe / 100 + doy in
  era * 146097 + doe - 719468.

Definition parseIsoDate (s : string) : option Z :=
  if (String.length s =? 10)%nat
     && String.eqb (String.substring 4 1 s) "-"
     && String.eqb (String.substring 7 1 s) "-"
  then
    y ← number 0 (String.substring 0 4 s);
    m ← number 0 (String.substring 5 2 s);
    d ← number 0 (String.substring 8 2 s);
    if (1 <=? m) && (m <=? 12) && (1 <=? d) && (d <=? 31)
    then Some (daysFromCivil y m d * msPerDay)
    else None
  else None.

End CostTracker.

(* ===================================================================== *)
(** * Sample snapshots *)
(* ===================================================================== *)

Module Sample.

(** A snapshot whose usage is [input] input tokens of a window of [size]. *)
Definition snapshot (input size : float) (ts : list ToolEntry.t)
  (ags : list AgentEntry.t) (tds : list TodoItem.t) : RenderContext :=
  {| stdin :=
       {| context_window :=
            Some {| current_usage :=
                      Some {| input_tokens := Some input;
                              cache_creation_input_tokens := None;
                              cache_read_input_tokens := None |};
                    context_window_size := Some size |} |};
     transcript := {| tools := ts; agents := ags; todos := tds |} |}.

Definition tool (name : string) (s : RunStatus) (start : Z) (finish : option Z)
  : ToolEntry.t :=
  ToolEntry.mk name None s (JS.MkDate start) (JS.MkDate <$> finish).

Definition explore : AgentEntry.t :=
  AgentEntry.mk "Explore" (Some "Find the parser") running (JS.MkDate 500).

Definition todo (text : string) (s : TodoItem.Status) : TodoItem.t :=
  TodoItem.mk text s.

(** 95% of the window used, with a tool and an agent running and a todo
    in progress. *)
Definition pressureBusy : RenderContext :=
  snapshot 190000 200000
    [tool "Bash" running 900 None] [explore] [todo "Write tests" TodoItem.in_progress].

(** 95% of the window used, and no tool, agent or todo at all. *)
Definition pressureOnly : RenderContext :=
  snapshot 190000 200000 [] [] [].

(** 10% of the window used, and no tool, agent or todo at all. *)
Definition quiet : RenderContext :=
  snapshot 20000 200000 [] [] [].

(** 57.5% of the window used: 115000 tokens of 200000. *)
Definition halfway : RenderContext :=
  snapshot 115000 200000 [] [] [].

(** A Read that completed at 1000 ms, while a todo is in progress. *)
Definition justRead : RenderContext :=
  snapshot 20000 200000
    [tool "Read" completed 400 (Some 1000)] []
    [todo "Write tests" TodoItem.in_progress].

(** The same completion with every todo still pending. *)
Definition justReadPending : RenderContext :=
  snapshot 20000 200000
    [tool "Read" completed 400 (Some 1000)] []
    [todo "Write tests" TodoItem.pending].

(** A Read that completed at 1000 ms, followed in the list by an Edit
    marked completed that carries no end time. *)
Definition lastWithoutEnd : RenderContext :=
  snapshot 20000 200000
    [tool "Read" completed 400 (Some 1000); tool "Edit" completed 300 None] [] [].

(** The pricing table of the tracker's tests, alone in a store, and an
    override of the opus rates. *)
Definition basePricing : CostTracker.PricingConfig :=
  {| CostTracker.sonnet := {| CostTracker.input := 3; CostTracker.output := 15 |};
     CostTracker.opus := {| CostTracker.input := 15; CostTracker.output := 75 |};
     CostTracker.haiku := {| CostTracker.input := 0.25; CostTracker.output := 1.25 |};
     CostTracker.lastUpdated := "2025-01-01" |}.

Definition baseStore : gmap positive CostTracker.PricingConfig :=
  {[ 1%positive := basePricing ]}.

Definition opusOverride : CostTracker.Partial.t :=
  {| CostTracker.Partial.sonnet := None;
     CostTracker.Partial.opus :=
       Some {| CostTracker.input := 1; CostTracker.output := 2 |};
     CostTracker.Partial.haiku := None;
     CostTracker.Partial.lastUpdated := None |}.

(** A tracker that has counted tokens, and events for it; the structured
    objects are their own text form. *)
Definition busyTracker : CostTracker.Tracker :=
  {| CostTracker.inputTokens := 120;
     CostTracker.outputTokens := 45;
     CostTracker.model := "claude-opus-4";
     CostTracker.pricing := 1%positive |}.

Definition readEvent : CostTracker.HudEvent (JsonObject := string) :=
  {| CostTracker.event := "PostToolUse";
     CostTracker.tool := Some "Read";
     CostTracker.eventInput := Some "{file_path: /path/to/file.ts}";
     CostTracker.response := Some "{content: xxxxxxxxxxxxxxxx}";
     CostTracker.prompt := None |}.

Definition stopEvent : CostTracker.HudEvent (JsonObject := string) :=
  {| CostTracker.event := "Stop";
     CostTracker.tool := None;
     CostTracker.eventInput := Some "{}";
     CostTracker.response := None;
     CostTracker.prompt := Some "ignored" |}.

End Sample.

(* ===================================================================== *)
(** * Elapsed times *)
(* ===================================================================== *)

Module Elapsed.

(** [Math.floor]: the largest integral number not above [x], computed in
    exact arithmetic; NaN, the infinities, the zeros and integral values
    are returned as they are, and a positive [x] below one gives +0. *)
Definition Math_floor (x : float) : float :=
  match Prim2SF x with
  | S754_finite s m e =>
      if 0 <=? e then x
      else
        let d := Z.pow 2 (- e) in
        let n := if s then Z.neg m else Z.pos m in
        let z := n / d in
        if z =? 0 then 0%float else JS.ofZ z
  | _ => x
  end.

(** [Date.now() - startTime.getTime()]: time values are integers that a
    double holds exactly, and so is their difference as long as it is
    below 2^53 in magnitude (two times less than 285,000 years apart);
    it is NaN for an invalid date. *)
Definition elapsedMs (now : Z) (startTime : JS.Date) : option Z :=
  (fun t => now - t) <$> JS.getTime startTime.

(** [ms < bound], false for NaN. *)
Definition below (ms : option Z) (bound : Z) : bool :=
  match ms with
  | Some d => d <? bound
  | None => false
  end.

(** [ms] and [ms % 60000] as doubles; the remainder of two integers is
    exact and has the sign of [ms]. *)
Definition number (ms : option Z) : float :=
  match ms with
  | Some d => JS.ofZ d
  | None => nan
  end.

Definition remainder (ms : option Z) (n : Z) : float :=
  match ms with
  | Some d => JS.ofZ (Z.rem d n)
  | None => nan
  end.

(** [formatElapsed] (animation-line.ts:156, part_005:142). *)
Definition formatElapsed (now : Z) (startTime : JS.Date) : string :=
  let ms := elapsedMs now startTime in
  if below ms 1000 then "<1s"
  else if below ms 60000 then
    JS.numberToString (JS.Math_round (number ms / 1000)%float) ++ "s"
  else
    let mins := Math_floor (number ms / 60000)%float in
    let secs := JS.Math_round (remainder ms 60000 / 1000)%float in
    JS.numberToString mins ++ "m " ++ JS.numberToString secs ++ "s".

(** Equality of the representations of two doubles. *)
Definition sameDouble (a b : float) : bool :=
  match Prim2SF a, Prim2SF b with
  | S754_zero s, S754_zero s' => Bool.eqb s s'
  | S754_infinity s, S754_infinity s' => Bool.eqb s s'
  | S754_nan, S754_nan => true
  | S754_finite s m e, S754_finite s' m' e' =>
      Bool.eqb s s' && Pos.eqb m m' && Z.eqb e e'
  | _, _ => false
  end.

(** [f] holds on the [n] integers from [start] on. *)
Fixpoint holdsFrom (f : Z -> bool) (n : nat) (start : Z) : bool :=
  match n with
  | O => true
  | S n' => f start && holdsFrom f n' (start + 1)
  end.

(** The rounded seconds of [ms] are the integer nearest to [ms / 1000],
    a half going up. *)
Definition secondsRounded (ms : Z) : bool :=
  sameDouble (JS.Math_round (JS.ofZ ms / 1000)%float)
             (JS.ofZ ((ms + 500) / 1000)).

End Elapsed.

(* ===================================================================== *)
(** * JSON values *)
(* ===================================================================== *)

Module Json.

(** A value as [JSON.parse] returns it; an object maps its keys to
    values. *)
#[warnings="-register-all"]
Inductive t : Type :=
| JNull
| JBool (b : bool)
| JNumber (x : float)
| JString (s : string)
| JArray (items : list t)
| JObject (fields : gmap string t).

(** [value.key] for a key that is no array index, not [length], and not
    a property of [Object.prototype]: defined on an object that has the
    key. (On [null] the access throws; the callers below test for it
    first, or are modelled with that case apart.) *)
Definition get (v : t) (key : string) : option t :=
  match v with
  | JObject fields => fields !! key
  | _ => None
  end.

(** [typeof v === 'object']: objects, arrays and [null]. *)
Definition typeofObject (v : t) : bool :=
  match v with
  | JNull | JArray _ | JObject _ => true
  | _ => false
  end.

Definition isNull (v : t) : bool :=
  match v with
  | JNull => true
  | _ => false
  end.

Definition truthy (v : t) : bool :=
  match v with
  | JNull => false
  | JBool b => b
  | JNumber x => negb (JS.falsyNumber x)
  | JString s => negb (String.eqb s EmptyString)
  | JArray _ | JObject _ => true
  end.

(** [Number.isFinite]. *)
Definition isFinite (x : float) : bool :=
  match Prim2SF x with
  | S754_zero _ | S754_finite _ _ _ => true
  | _ => false
  end.

End Json.

(* ===================================================================== *)
(** * tui/src/lib/hud-config.ts *)
(* ===================================================================== *)

Module HudConfig.

Inductive PanelId : Type :=
| status | context | cost | contextInfo | tools | agents | todos.

#[global] Instance PanelId_eq_dec : EqDecision PanelId.
Proof. solve_decision. Defined.

Definition PANEL_IDS : list PanelId :=
  [status; context; cost; contextInfo; tools; agents; todos].

Definition panelName (p : PanelId) : string :=
  match p with
  | status => "status"
  | context => "context"
  | cost => "cost"
  | contextInfo => "contextInfo"
  | tools => "tools"
  | agents => "agents"
  | todos => "todos"
  end.

(** The panel an entry of a JSON array names, when
    [PANEL_IDS.includes(entry)] holds. *)
Definition panelOf (entry : Json.t) : option PanelId :=
  match entry with
  | Json.JString s => List.find (fun p => String.eqb (panelName p) s) PANEL_IDS
  | _ => None
  end.

(** [Array.from(new Set(list))]: every value once, at the place of its
    first occurrence. *)
Fixpoint unique {A : Type} `{EqDecision A} (seen l : list A) : list A :=
  match l with
  | [] => []
  | x :: rest =>
      if bool_decide (x ∈ seen) then unique seen rest
      else x :: unique (x :: seen) rest
  end.

(** [normalizePanelList]; [None] is [undefined]. *)
Definition normalizePanelList (value : option Json.t) : option (list PanelId) :=
  match value with
  | Some (Json.JArray items) => Some (unique [] (omap panelOf items))
  | _ => None
  end.

(** One family of [normalizePricing]: [raw.key] must be a truthy value
    of type object with a number under [input] and under [output]. *)
Definition readRates (raw : Json.t) (key : string) : option CostTracker.Rates :=
  match Json.get raw key with
  | Some s =>
      if Json.truthy s && Json.typeofObject s then
        match Json.get s "input", Json.get s "output" with
        | Some (Json.JNumber i), Some (Json.JNumber o) =>
            Some {| CostTracker.input := i; CostTracker.output := o |}
        | _, _ => None
        end
      else None
  | None => None
  end.

Definition readLastUpdated (raw : Json.t) : option string :=
  match Json.get raw "lastUpdated" with
  | Some (Json.JString s) => Some s
  | _ => None
  end.

Definition emptyPricing : CostTracker.Partial.t :=
  {| CostTracker.Partial.sonnet := None;
     CostTracker.Partial.opus := None;
     CostTracker.Partial.haiku := None;
     CostTracker.Partial.lastUpdated := None |}.

Definition present {A : Type} (field : option A) : nat :=
  match field with
  | Some _ => 1
  | None => 0
  end.

(** [Object.keys(result).length]. *)
Definition keyCount (p : CostTracker.Partial.t) : nat :=
  present (CostTracker.Partial.sonnet p)
  + present (CostTracker.Partial.opus p)
  + present (CostTracker.Partial.haiku p)
  + present (CostTracker.Partial.lastUpdated p).

(** [normalizePricing]; [None] is [undefined], as argument and as
    result. *)
Definition normalizePricing (value : option Json.t)
  : option CostTracker.Partial.t :=
  match value with
  | Some raw =>
      if negb (Json.typeofObject raw) || Json.isNull raw then None
      else
        let result :=
          {| CostTracker.Partial.sonnet := readRates raw "sonnet";
             CostTracker.Partial.opus := readRates raw "opus";
             CostTracker.Partial.haiku := readRates raw "haiku";
             CostTracker.Partial.lastUpdated := readLastUpdated raw |} in
        if (0 <? keyCount result)%nat then Some result else None
  | None => None
  end.

Record HudConfig : Type := {
  panelOrder : option (list PanelId);
  hiddenPanels : option (list PanelId);
  width : option float;
  pricing : option CostTracker.Partial.t
}.

Definition readWidth (raw : Json.t) : option float :=
  match Json.get raw "width" with
  | Some (Json.JNumber w) => if (0 <? w)%float then Some w else None
  | _ => None
  end.

(** [buildHudConfig]; [None] stands for the [TypeError] of reading a
    property of [null]. *)
Definition buildHudConfig (raw : Json.t) : option HudConfig :=
  match raw with
  | Json.JNull => None
  | _ =>
      Some {| panelOrder := normalizePanelList (Json.get raw "panelOrder");
              hiddenPanels := normalizePanelList (Json.get raw "hiddenPanels");
              width := readWidth raw;
              pricing := normalizePricing (Json.get raw "pricing") |}
  end.

Record HudConfigReadResult : Type := {
  data : option HudConfig;
  error : option string
}.

(** What the file system holds at [configPath]. *)
Inductive File : Type :=
| Missing
| Unreadable
| Content (text : string).

Definition failed : HudConfigReadResult :=
  {| data := None; error := Some "Failed to read hud config" |}.

Section Reading.

(** [JSON.parse]; [None] stands for the [SyntaxError] it throws. *)
Variable JSON_parse : string -> option Json.t.

(** [readHudConfigWithStatus], of the file at [configPath]. *)
Definition readHudConfigWithStatus (file : File) : HudConfigReadResult :=
  match file with
  | Missing => {| data := None; error := None |}
  | Unreadable => failed
  | Content text =>
      match JSON_parse text ≫= buildHudConfig with
      | Some config => {| data := Some config; error := None |}
      | None => failed
      end
  end.

(** [readHudConfig]. *)
Definition readHudConfig (file : File) : option HudConfig :=
  data (readHudConfigWithStatus file).

End Reading.

(** The fields of a [HudConfigReader]; [refreshInterval] is 30000. *)
Record Reader : Type := {
  cached : option HudConfig;
  lastError : option string;
  lastRead : Z
}.

Definition refreshInterval : Z := 30000.

Definition newReader : Reader :=
  {| cached := None; lastError := None; lastRead := 0 |}.

(** [!this.data || now - this.lastRead > this.refreshInterval]. *)
Definition due (now : Z) (r : Reader) : bool :=
  match cached r with
  | None => true
  | Some _ => refreshInterval <? now - lastRead r
  end.

Definition store (now : Z) (result : HudConfigReadResult) : Reader :=
  {| cached := data result; lastError := error result; lastRead := now |}.

(** [read()], [readWithStatus()] and [forceRefresh()] at the time [now];
    [disk] is what [readHudConfigWithStatus(this.configPath)] returns at
    that time, and is looked at only when the method calls it. *)
Definition read (now : Z) (disk : HudConfigReadResult) (r : Reader)
  : Reader * option HudConfig :=
  if due now r then (store now disk, data disk) else (r, cached r).

Definition readWithStatus (now : Z) (disk : HudConfigReadResult) (r : Reader)
  : Reader * HudConfigReadResult :=
  if due now r then (store now disk, disk)
  else (r, {| data := cached r; error := lastError r |}).

Definition forceRefresh (now : Z) (disk : HudConfigReadResult) (r : Reader)
  : Reader * option HudConfig :=
  (store now disk, data disk).

(** A run of [read()] calls, each with its time and the state of the
    disk at that time: the reader at the end and what each call
    returned. *)
Fixpoint reads (calls : list (Z * HudConfigReadResult)) (r : Reader)
  : Reader * list (option HudConfig) :=
  match calls with
  | [] => (r, [])
  | (now, disk) :: rest =>
      let '(r1, out) := read now disk r in
      let '(r2, outs) := reads rest r1 in
      (r2, out :: outs)
  end.

End HudConfig.

(* ===================================================================== *)
(** * unnamed/part_004: the event parser *)
(* ===================================================================== *)

Module EventParser.

(** The event [parseHudEvent] builds: the fields of the object literal
    and the four it adds afterwards. [None] in [tool], [input] and
    [response] is [null]; in the other optional fields it is
    [undefined]. *)
Record HudEvent : Type := {
  event : string;
  tool : option string;
  toolUseId : option string;
  input : option (gmap string Json.t);
  response : option (gmap string Json.t);
  session : string;
  ts : float;
  permissionMode : option string;
  transcriptPath : option string;
  cwd : option string;
  prompt : option string
}.

(** The readers return [None] for [undefined]; a [null] that is let
    through is [Some None]. *)
Definition isRecord (value : Json.t) : option (gmap string Json.t) :=
  match value with
  | Json.JObject fields => Some fields
  | _ => None
  end.

Definition readString (value : option Json.t) : option string :=
  match value with
  | Some (Json.JString s) => Some s
  | _ => None
  end.

Definition readStringOrNull (value : option Json.t) : option (option string) :=
  match value with
  | Some Json.JNull => Some None
  | Some (Json.JString s) => Some (Some s)
  | _ => None
  end.

Definition readNumber (value : option Json.t) : option float :=
  match value with
  | Some (Json.JNumber x) => if Json.isFinite x then Some x else None
  | _ => None
  end.

Definition readRecordOrNull (value : option Json.t)
  : option (option (gmap string Json.t)) :=
  match value with
  | Some Json.JNull => Some None
  | Some v => Some <$> isRecord v
  | None => None
  end.

(** ['key' in raw ? read(raw.key) : null]. *)
Definition orNull {A : Type} (read : option Json.t -> option (option A))
  (raw : gmap string Json.t) (key : string) : option (option A) :=
  match raw !! key with
  | Some v => read (Some v)
  | None => Some None
  end.

(** The body of [parseHudEvent] after [JSON.parse], on a record. *)
Definition fromRecord (raw : gmap string Json.t) : option HudEvent :=
  event ← JS.truthyString (readString (raw !! "event"));
  session ← JS.truthyString (readString (raw !! "session"));
  ts ← readNumber (raw !! "ts");
  tool ← orNull readStringOrNull raw "tool";
  input ← orNull readRecordOrNull raw "input";
  response ← orNull readRecordOrNull raw "response";
  Some {| event := event;
          tool := tool;
          toolUseId := readString (raw !! "toolUseId");
          input := input;
          response := response;
          session := session;
          ts := ts;
          permissionMode := JS.truthyString (readString (raw !! "permissionMode"));
          transcriptPath := JS.truthyString (readString (raw !! "transcriptPath"));
          cwd := JS.truthyString (readString (raw !! "cwd"));
          prompt := JS.truthyString (readString (raw !! "prompt")) |}.

Section Parsing.

(** [JSON.parse]; [None] stands for the [SyntaxError] it throws. *)
Variable JSON_parse : string -> option Json.t.

(** [parseHudEvent]; [None] is [null]. *)
Definition parseHudEvent (line : string) : option HudEvent :=
  value ← JSON_parse line;
  raw ← isRecord value;
  fromRecord raw.

End Parsing.

(** The keys [parseHudEvent] reads. *)
Definition keys : list string :=
  ["event"; "session"; "ts"; "tool"; "input"; "response"; "toolUseId";
   "permissionMode"; "transcriptPath"; "cwd"; "prompt"].

End EventParser.

(* ===================================================================== *)
(** * unnamed/part_002: the lines of the statusline *)
(* ===================================================================== *)

Module Index.






Section Rendering.

Variable RESET : string.
Variable env : string -> option string.



End Rendering.

End Index.

(* ===================================================================== *)
(** * Further sample inputs *)
(* ===================================================================== *)

Module Fixture.

(** An agent that has finished, before the running [Sample.explore] and
    a second running agent; a tool is running and a todo is in progress
    as well. *)
Definition planned : AgentEntry.t :=
  AgentEntry.mk "Plan" None completed (JS.MkDate 100).

Definition review : AgentEntry.t :=
  AgentEntry.mk "Review" (Some "Review the parser and every caller of it") running
    (JS.MkDate 700).

Definition agentsBusy : RenderContext :=
  Sample.snapshot 20000 200000
    [Sample.tool "Bash" running 900 None]
    [planned; Sample.explore; review]
    [Sample.todo "Write tests" TodoItem.in_progress].

(** Two running tools, the later one followed by a completed one; the
    only agent has finished. *)
Definition toolsBusy : RenderContext :=
  Sample.snapshot 20000 200000
    [Sample.tool "Grep" running 100 None;
     Sample.tool "Bash" running 900 None;
     Sample.tool "Read" completed 400 (Some 1000)]
    [planned] [].

Definition object (fields : list (string * Json.t)) : Json.t :=
  Json.JObject (list_to_map fields).

(** A configuration that names a panel twice and one that does not
    exist, and gives one complete and one incomplete family of rates. *)
Definition config : Json.t :=
  object
    [("panelOrder",
      Json.JArray [Json.JString "tools"; Json.JString "cost";
                   Json.JString "tools"; Json.JString "sidebar"]);
     ("width", Json.JNumber 80);
     ("theme", Json.JString "dark");
     ("pricing",
      object [("sonnet", object [("input", Json.JNumber 3);
                                 ("output", Json.JNumber 15)]);
              ("opus", object [("input", Json.JNumber 15)])])].

Definition built : HudConfig.HudConfig :=
  {| HudConfig.panelOrder := Some [HudConfig.tools; HudConfig.cost];
     HudConfig.hiddenPanels := None;
     HudConfig.width := Some 80%float;
     HudConfig.pricing :=
       Some {| CostTracker.Partial.sonnet :=
                 Some {| CostTracker.input := 3; CostTracker.output := 15 |};
               CostTracker.Partial.opus := None;
               CostTracker.Partial.haiku := None;
               CostTracker.Partial.lastUpdated := None |} |}.

(** The fields of a line of the event stream, and the event they give. *)
Definition eventFields : gmap string Json.t :=
  list_to_map
    [("event", Json.JString "PostToolUse");
     ("tool", Json.JString "Read");
     ("toolUseId", Json.JString EmptyString);
     ("input", object [("file_path", Json.JString "main.ts")]);
     ("response", Json.JNull);
     ("session", Json.JString "s1");
     ("ts", Json.JNumber 1700000000);
     ("cwd", Json.JString EmptyString)].

Definition parsed : EventParser.HudEvent :=
  {| EventParser.event := "PostToolUse";
     EventParser.tool := Some "Read";
     EventParser.toolUseId := Some EmptyString;
     EventParser.input := Some (list_to_map [("file_path", Json.JString "main.ts")]);
     EventParser.response := None;
     EventParser.session := "s1";
     EventParser.ts := 1700000000;
     EventParser.permissionMode := None;
     EventParser.transcriptPath := None;
     EventParser.cwd := None;
     EventParser.prompt := None |}.

End Fixture.

(* ===================================================================== *)
(** * Properties *)
(* ===================================================================== *)

(** ** Strings *)

Lemma length_append (s1 s2 : string) :
  String.length (s1 ++ s2) = (String.length s1 + String.length s2)%nat.
Proof. induction s1 as [|c s1 IH]; simpl; [reflexivity | now rewrite IH]. Qed.

Lemma length_substring_prefix (n : nat) (s : string) :
  (n <= String.length s)%nat -> String.length (String.substring 0 n s) = n.
Proof.
  revert s. induction n as [|n IH]; intros [|c s] Hn; simpl in *;
    try reflexivity; try lia.
  rewrite IH; [reflexivity | lia].
Qed.

Lemma prefix_append (p s : string) :
  String.prefix p s = true <-> exists post, s = p ++ post.
Proof.
  revert s. induction p as [|a p IH]; intros s.
  - split; [intros _; exists s; reflexivity | intros _; destruct s; reflexivity].
  - destruct s as [|b s]; simpl.
    + split; [discriminate | intros [post H]; discriminate H].
    + destruct (Ascii.ascii_dec a b) as [->|Hab].
      * rewrite IH. split; intros [post H]; exists post.
        -- rewrite H. reflexivity.
        -- injection H as H. exact H.
      * split; [discriminate | intros [post H]].
        injection H as H _. congruence.
Qed.

(** [includes] is the occurrence of [sub] somewhere in [s]. *)
Lemma includes_occurs (s sub : string) :
  JS.includes s sub = true <-> exists pre post, s = pre ++ sub ++ post.
Proof.
  split.
  - induction s as [|c s IH]; cbn [JS.includes]; intros H.
    + apply prefix_append in H as [post H].
      exists EmptyString, post. exact H.
    + apply orb_true_iff in H as [H|H].
      * apply prefix_append in H as [post H].
        exists EmptyString, post. exact H.
      * destruct (IH H) as (pre & post & ->).
        exists (String c pre), post. reflexivity.
  - intros (pre & post & ->). induction pre as [|c pre IH].
    + assert (H : String.prefix sub (sub ++ post) = true).
      { apply prefix_append. exists post. reflexivity. }
      change (EmptyString ++ sub ++ post) with (sub ++ post).
      destruct (sub ++ post); cbn [JS.includes]; [exact H |].
      rewrite H. reflexivity.
    + change (String c pre ++ sub ++ post)
        with (String c (pre ++ sub ++ post)).
      cbn [JS.includes]. rewrite IH. apply orb_true_r.
Qed.

(** [slice(0, e)] with [e] inside the string is the prefix of [e] code
    units. *)
Lemma slice_prefix (text : string) (e : Z) :
  0 <= e <= Z.of_nat (String.length text) ->
  JS.slice text 0 e = String.substring 0 (Z.to_nat e) text.
Proof.
  intros He. unfold JS.slice, JS.clampIndex. simpl.
  destruct (Z.ltb_spec e 0) as [Hneg|_]; [lia|].
  rewrite (Z.min_l 0) by lia. rewrite (Z.min_l e) by lia.
  rewrite Z.sub_0_r, Z.max_l by lia. reflexivity.
Qed.

(** ** Truncation *)

Lemma truncate_short (text : string) (maxLen : Z) :
  Z.of_nat (String.length text) <= maxLen -> truncate text maxLen = text.
Proof.
  intros H. unfold truncate.
  destruct (Z.leb_spec (Z.of_nat (String.length text)) maxLen); [reflexivity | lia].
Qed.

Lemma truncate_long (text : string) (maxLen : Z) :
  3 <= maxLen < Z.of_nat (String.length text) ->
  truncate text maxLen
    = String.substring 0 (Z.to_nat (maxLen - 3)) text ++ "..."
  /\ Z.of_nat (String.length (truncate text maxLen)) = maxLen.
Proof.
  intros H. unfold truncate.
  destruct (Z.leb_spec (Z.of_nat (String.length text)) maxLen); [lia|].
  rewrite slice_prefix by lia. split; [reflexivity|].
  rewrite length_append, length_substring_prefix by lia. simpl. lia.
Qed.

(** C4. For the maximum lengths the classifiers use, 25 and 30: a text
    longer than the maximum is cut to its first [maxLen - 3] characters
    followed by "...", which makes exactly [maxLen] characters; any other
    text is returned as it is. In particular a text of 30 characters cut
    at 25 has 25 characters and ends in "...", and a text of 10 characters
    is unchanged. *)
Theorem C4_truncate_exact (text : string) (maxLen : Z) :
  maxLen = 25 \/ maxLen = 30 ->
  (maxLen < Z.of_nat (String.length text) ->
     truncate text maxLen
       = String.substring 0 (Z.to_nat (maxLen - 3)) text ++ "..."
     /\ Z.of_nat (String.length (truncate text maxLen)) = maxLen)
  /\ (Z.of_nat (String.length text) <= maxLen -> truncate text maxLen = text)
  /\ (String.length text = 30%nat ->
        String.length (truncate text 25) = 25%nat
        /\ exists kept, truncate text 25 = kept ++ "...")
  /\ (String.length text = 10%nat -> truncate text 25 = text).
Proof.
  intros Hmax. split; [|split; [|split]].
  - intros Hlong. apply truncate_long. lia.
  - apply truncate_short.
  - intros Hlen. destruct (truncate_long text 25) as [Heq Hcut]; [lia|].
    split; [lia|]. eexists. exact Heq.
  - intros Hlen. apply truncate_short. lia.
Qed.

Lemma C4_truncate_exact_witness :
  truncate "abcdefghijklmnopqrstuvwxyz0123" 25 = "abcdefghijklmnopqrstuv..."
  /\ truncate "0123456789" 25 = "0123456789".
Proof.
  pose proof (C4_truncate_exact "abcdefghijklmnopqrstuvwxyz0123" 25
                (or_introl eq_refl)) as [Hlong _].
  pose proof (C4_truncate_exact "0123456789" 25 (or_introl eq_refl))
    as [_ [Hshort _]].
  split.
  - destruct Hlong as [Heq _]; [simpl; lia | exact Heq].
  - apply Hshort. simpl. lia.
Defined.

(** ** Context pressure *)

(** C1. When the context percentage is at least 90, every classifier
    returns its pressure state, whatever tools, agents and todos the
    snapshot holds. [detectActivityState] (both files) words the detail
    "{percent}% context used"; [detectMesmericMode] words it
    "{percent}% context". *)
Theorem C1_pressure_first (now : Z) (ctx : RenderContext) :
  (90 <=? getContextPercent ctx)%float = true ->
  Tamagotchi.detectActivityState now ctx
    = {| Tamagotchi.state := Tamagotchi.pressure;
         Tamagotchi.detail :=
           JS.numberToString (getContextPercent ctx) ++ "% context used";
         Tamagotchi.startTime := None |}
  /\ Spinner.detectActivityState now ctx
    = {| Spinner.state := Spinner.pressure;
         Spinner.detail :=
           JS.numberToString (getContextPercent ctx) ++ "% context used";
         Spinner.startTime := None |}
  /\ Mesmeric.detectMesmericMode now ctx
    = {| Mesmeric.mode := Mesmeric.PRESSURE;
         Mesmeric.detail :=
           JS.numberToString (getContextPercent ctx) ++ "% context" |}.
Proof.
  intros Hp.
  unfold Tamagotchi.detectActivityState, Spinner.detectActivityState,
    Mesmeric.detectMesmericMode.
  cbv zeta. rewrite Hp. repeat split.
Qed.

Lemma C1_pressure_first_witness :
  Tamagotchi.detectActivityState 1000 Sample.pressureBusy
    = {| Tamagotchi.state := Tamagotchi.pressure;
         Tamagotchi.detail := "95% context used";
         Tamagotchi.startTime := None |}
  /\ Spinner.detectActivityState 1000 Sample.pressureBusy
    = {| Spinner.state := Spinner.pressure;
         Spinner.detail := "95% context used";
         Spinner.startTime := None |}
  /\ Mesmeric.detectMesmericMode 1000 Sample.pressureBusy
    = {| Mesmeric.mode := Mesmeric.PRESSURE;
         Mesmeric.detail := "95% context" |}.
Proof.
  pose proof (C1_pressure_first 1000 Sample.pressureBusy) as H.
  vm_compute in H. exact (H eq_refl).
Defined.

(** The wave visualizer, at 95% with a tool and an agent running, does
    not word the detail "95% context used". *)
Lemma C1_mesmeric_detail_differs :
  (90 <=? getContextPercent Sample.pressureBusy)%float = true
  /\ Mesmeric.detail (Mesmeric.detectMesmericMode 1000 Sample.pressureBusy)
     <> JS.numberToString (getContextPercent Sample.pressureBusy)
        ++ "% context used".
Proof. split; [reflexivity | vm_compute; discriminate]. Qed.

(** ** The context percentage *)

(** C5. The percentage is 0 when the usage object or the window size is
    absent, and also when the size is zero or NaN, so that the division
    is only ever made by a non-zero size. Otherwise it is
    [Math.round((input + cacheCreation + cacheRead) / size * 100)] in
    double precision, an absent count standing for 0: the quotient is
    taken first and then scaled. *)
Theorem C5_context_percent (ctx : RenderContext) :
  let usage := context_window (stdin ctx) ≫= current_usage in
  let size := context_window (stdin ctx) ≫= context_window_size in
  (usage = None \/ size = None -> getContextPercent ctx = 0%float)
  /\ (forall s, size = Some s ->
        (s =? 0)%float = true \/ PrimFloat.is_nan s = true ->
        getContextPercent ctx = 0%float)
  /\ (forall u s, usage = Some u -> size = Some s ->
        (s =? 0)%float = false -> PrimFloat.is_nan s = false ->
        getContextPercent ctx
          = JS.Math_round
              ((default 0 (input_tokens u)
                + default 0 (cache_creation_input_tokens u)
                + default 0 (cache_read_input_tokens u)) / s * 100)%float).
Proof.
  unfold getContextPercent. cbv zeta.
  destruct (context_window (stdin ctx) ≫= current_usage) as [u|];
    destruct (context_window (stdin ctx) ≫= context_window_size) as [s|];
    (split; [|split]); try (intros [H|H]; discriminate H);
    try (intros; discriminate); try reflexivity.
  - intros s' [= <-] [H|H]; unfold JS.falsyNumber; rewrite H;
      [reflexivity | rewrite orb_true_r; reflexivity].
  - intros u' s' [= <-] [= <-] H0 Hn. unfold JS.falsyNumber.
    rewrite H0, Hn. reflexivity.
Qed.

Lemma C5_context_percent_witness :
  getContextPercent Sample.pressureBusy = 95%float.
Proof.
  destruct (C5_context_percent Sample.pressureBusy) as [_ [_ H]].
  rewrite (H _ _ eq_refl eq_refl eq_refl eq_refl). reflexivity.
Defined.

(** 115000 tokens of 200000 are 57.5%, which rounds to 58, and
    [100 * 115000 / 200000] is exactly 57.5 in double precision. The code
    divides first: 115000 / 200000 is the double just below 0.575, its
    product with 100 is the double 57.49999999999999, and [Math.round]
    returns 57. *)
Lemma C5_quotient_first_differs :
  (100 * 115000 / 200000 =? 57.5)%float = true
  /\ (115000 / 200000 * 100 <? 57.5)%float = true
  /\ getContextPercent Sample.halfway = 57%float
  /\ specContextPercent Sample.halfway = 58%float
  /\ getContextPercent Sample.halfway <> specContextPercent Sample.halfway.
Proof.
  split; [reflexivity|]. split; [reflexivity|].
  split; [reflexivity|]. split; [reflexivity|].
  intros H. apply (f_equal Prim2SF) in H. vm_compute in H. discriminate H.
Qed.

(** ** Lists of entries *)

Lemma find_all_false {A : Type} (f : A -> bool) (l : list A) :
  Forall (fun x => f x = false) l -> List.find f l = None.
Proof.
  induction 1 as [|x l Hx _ IH]; simpl; [reflexivity|].
  rewrite Hx. exact IH.
Qed.

Lemma filter_all_false {A : Type} (f : A -> bool) (l : list A) :
  Forall (fun x => f x = false) l -> List.filter f l = [].
Proof.
  induction 1 as [|x l Hx _ IH]; simpl; [reflexivity|].
  rewrite Hx. exact IH.
Qed.

Lemma find_some_true {A : Type} (f : A -> bool) (l : list A) :
  Exists (fun x => f x = true) l -> exists x, List.find f l = Some x.
Proof.
  induction 1 as [x l Hx | x l _ IH]; simpl.
  - rewrite Hx. eexists; reflexivity.
  - destruct (f x); [eexists; reflexivity | exact IH].
Qed.

Lemma no_agent_running (l : list AgentEntry.t) :
  Forall (fun a => AgentEntry.status a <> running) l ->
  List.find (agentHas running) l = None.
Proof.
  intros H. apply find_all_false. eapply Forall_impl; [exact H|].
  intros a Ha. apply bool_decide_eq_false. exact Ha.
Qed.

Lemma no_tool_running (l : list ToolEntry.t) :
  Forall (fun t => ToolEntry.status t <> running) l ->
  last (List.filter (toolHas running) l) = None.
Proof.
  intros H. rewrite filter_all_false; [reflexivity|].
  eapply Forall_impl; [exact H|].
  intros t Ht. apply bool_decide_eq_false. exact Ht.
Qed.

Lemma no_todo_in_progress (l : list TodoItem.t) :
  Forall (fun d => TodoItem.status d <> TodoItem.in_progress) l ->
  List.find (todoHas TodoItem.in_progress) l = None.
Proof.
  intros H. apply find_all_false. eapply Forall_impl; [exact H|].
  intros d Hd. apply bool_decide_eq_false. exact Hd.
Qed.

Lemma some_todo_in_progress (l : list TodoItem.t) :
  Exists (fun d => TodoItem.status d = TodoItem.in_progress) l ->
  exists d, List.find (todoHas TodoItem.in_progress) l = Some d.
Proof.
  intros H. apply find_some_true. eapply Exists_impl; [exact H|].
  intros d Hd. apply bool_decide_eq_true. exact Hd.
Qed.

(** The last of the last three elements is the last element. *)
Lemma last_lastThree {A : Type} (l : list A) :
  last (Spinner.lastThree l) = last l.
Proof.
  unfold Spinner.lastThree.
  destruct (last l) as [x|] eqn:Hl.
  - apply last_Some in Hl as [l' ->].
    rewrite length_app. simpl.
    rewrite drop_app_le by lia. apply last_snoc.
  - apply last_None in Hl as ->. reflexivity.
Qed.

(** ** The terminal fallback *)

(** C6. A snapshot without tools, agents and todos, whose context
    percentage is not 90 or more, gets the terminal fallback with the
    detail "Waiting for input": the state [sleeping] of
    src/render/animation-line.ts, the mode [SLEEP] of the wave
    visualizer, and the state [idle] of unnamed/part_005, whose states
    have no [sleeping]. *)
Theorem C6_nothing_to_show (now : Z) (ctx : RenderContext) :
  (90 <=? getContextPercent ctx)%float = false ->
  tools (transcript ctx) = [] ->
  agents (transcript ctx) = [] ->
  todos (transcript ctx) = [] ->
  Tamagotchi.detectActivityState now ctx
    = {| Tamagotchi.state := Tamagotchi.sleeping;
         Tamagotchi.detail := "Waiting for input";
         Tamagotchi.startTime := None |}
  /\ Mesmeric.detectMesmericMode now ctx
    = {| Mesmeric.mode := Mesmeric.SLEEP;
         Mesmeric.detail := "Waiting for input" |}
  /\ Spinner.detectActivityState now ctx
    = {| Spinner.state := Spinner.idle;
         Spinner.detail := "Waiting for input";
         Spinner.startTime := None |}.
Proof.
  intros Hp Ht Ha Hd.
  unfold Tamagotchi.detectActivityState, Tamagotchi.afterRecentCompletion,
    Mesmeric.detectMesmericMode, Mesmeric.afterRecentCompletion,
    Spinner.detectActivityState.
  cbv zeta. rewrite Hp, Ht, Ha, Hd. repeat split.
Qed.

Lemma C6_nothing_to_show_witness :
  Tamagotchi.state (Tamagotchi.detectActivityState 1000 Sample.quiet)
    = Tamagotchi.sleeping
  /\ Mesmeric.mode (Mesmeric.detectMesmericMode 1000 Sample.quiet)
    = Mesmeric.SLEEP
  /\ Spinner.state (Spinner.detectActivityState 1000 Sample.quiet)
    = Spinner.idle.
Proof.
  destruct (C6_nothing_to_show 1000 Sample.quiet eq_refl eq_refl eq_refl eq_refl)
    as [-> [-> ->]].
  repeat split.
Defined.

(** With 95% of the window used, a snapshot without tools, agents and
    todos gets the pressure state, not the fallback. *)
Lemma C6_pressure_without_history :
  tools (transcript Sample.pressureOnly) = []
  /\ agents (transcript Sample.pressureOnly) = []
  /\ todos (transcript Sample.pressureOnly) = []
  /\ Tamagotchi.detectActivityState 1000 Sample.pressureOnly
     = {| Tamagotchi.state := Tamagotchi.pressure;
          Tamagotchi.detail := "95% context used";
          Tamagotchi.startTime := None |}
  /\ Tamagotchi.state (Tamagotchi.detectActivityState 1000 Sample.pressureOnly)
     <> Tamagotchi.sleeping.
Proof.
  split; [reflexivity | split; [reflexivity | split; [reflexivity |]]].
  split; [vm_compute; reflexivity | vm_compute; discriminate].
Qed.

(** ** Recent completions *)

Lemma recentCompletion_within (now window e : Z) (l : list ToolEntry.t)
  (t : ToolEntry.t) :
  last l = Some t ->
  ToolEntry.endTime t = Some (JS.MkDate e) ->
  now - e < window ->
  recentCompletion now window l = Some t.
Proof.
  intros Hl He Hw. unfold recentCompletion. rewrite Hl. simpl.
  rewrite He. simpl. unfold JS.elapsedBelow. simpl.
  destruct (Z.ltb_spec (now - e) window); [reflexivity | lia].
Qed.

Lemma recentCompletion_stale (now window : Z) (l : list ToolEntry.t)
  (t : ToolEntry.t) :
  last l = Some t ->
  ToolEntry.endTime t = None
  \/ (exists d, ToolEntry.endTime t = Some d
                /\ JS.elapsedBelow now d window = false) ->
  recentCompletion now window l = None.
Proof.
  intros Hl He. unfold recentCompletion. rewrite Hl. simpl.
  destruct He as [-> | [d [-> Hd]]]; simpl; [reflexivity|].
  rewrite Hd. reflexivity.
Qed.

(** C2. In a snapshot whose context percentage is not 90 or more and in
    which no agent and no tool is running, let the last completed tool
    have ended less than the recency window before the evaluation time.
    With the 3 s window of src/render/animation-line.ts the classifier
    returns [success] with "{name} complete!", whatever the todos are.
    In unnamed/part_005, with its 2 s window, the check for a todo in
    progress comes first: the classifier returns [success] with
    "{name} done!" when no todo is in progress, and [progress] with
    "{completed}/{total} tasks" when one is. *)
Theorem C2_recent_completion (now : Z) (ctx : RenderContext)
  (t : ToolEntry.t) (e : Z) :
  (90 <=? getContextPercent ctx)%float = false ->
  Forall (fun a => AgentEntry.status a <> running) (agents (transcript ctx)) ->
  Forall (fun x => ToolEntry.status x <> running) (tools (transcript ctx)) ->
  last (List.filter (toolHas completed) (tools (transcript ctx))) = Some t ->
  ToolEntry.endTime t = Some (JS.MkDate e) ->
  (now - e < 3000 ->
     Tamagotchi.detectActivityState now ctx
       = {| Tamagotchi.state := Tamagotchi.success;
            Tamagotchi.detail := ToolEntry.name t ++ " complete!";
            Tamagotchi.startTime := None |})
  /\ (now - e < 2000 ->
        (Forall (fun d => TodoItem.status d <> TodoItem.in_progress)
           (todos (transcript ctx)) ->
         Spinner.detectActivityState now ctx
           = {| Spinner.state := Spinner.success;
                Spinner.detail := ToolEntry.name t ++ " done!";
                Spinner.startTime := None |})
        /\ (Exists (fun d => TodoItem.status d = TodoItem.in_progress)
              (todos (transcript ctx)) ->
            Spinner.detectActivityState now ctx
              = {| Spinner.state := Spinner.progress;
                   Spinner.detail :=
                     Spinner.count
                       (length (List.filter (todoHas TodoItem.completed)
                                  (todos (transcript ctx))))
                     ++ "/" ++ Spinner.count (length (todos (transcript ctx)))
                     ++ " tasks";
                   Spinner.startTime := None |})).
Proof.
  intros Hp Ha Ht Hl He. split; [|split].
  - intros Hw. unfold Tamagotchi.detectActivityState. cbv zeta.
    rewrite Hp, (no_agent_running _ Ha), (no_tool_running _ Ht).
    rewrite (recentCompletion_within _ _ _ _ _ Hl He Hw). reflexivity.
  - intros Hd. unfold Spinner.detectActivityState. cbv zeta.
    rewrite Hp, (no_agent_running _ Ha), (no_tool_running _ Ht).
    rewrite (no_todo_in_progress _ Hd).
    rewrite (recentCompletion_within now 2000 e _ t); try assumption;
      [reflexivity|].
    rewrite last_lastThree. exact Hl.
  - intros Hd. unfold Spinner.detectActivityState. cbv zeta.
    rewrite Hp, (no_agent_running _ Ha), (no_tool_running _ Ht).
    destruct (some_todo_in_progress _ Hd) as [d ->]. reflexivity.
Qed.

Lemma C2_recent_completion_witness :
  Tamagotchi.detectActivityState 2500 Sample.justRead
    = {| Tamagotchi.state := Tamagotchi.success;
         Tamagotchi.detail := "Read complete!";
         Tamagotchi.startTime := None |}
  /\ Spinner.detectActivityState 2500 Sample.justReadPending
    = {| Spinner.state := Spinner.success;
         Spinner.detail := "Read done!";
         Spinner.startTime := None |}.
Proof.
  split.
  - refine (proj1 (C2_recent_completion 2500 Sample.justRead
                     (Sample.tool "Read" completed 400 (Some 1000)) 1000
                     eq_refl _ _ eq_refl eq_refl) _);
      [constructor | repeat constructor; discriminate | simpl; lia].
  - refine (proj1 (proj2 (C2_recent_completion 2500 Sample.justReadPending
                     (Sample.tool "Read" completed 400 (Some 1000)) 1000
                     eq_refl _ _ eq_refl eq_refl) _) _);
      [constructor | repeat constructor; discriminate | simpl; lia
      | repeat constructor; discriminate].
Defined.

(** In unnamed/part_005 a Read that completed 1.5 s ago does not give
    [success] while a todo is in progress: the classifier returns
    [progress]. *)
Lemma C2_spinner_todo_first :
  (90 <=? getContextPercent Sample.justRead)%float = false
  /\ Forall (fun a => AgentEntry.status a <> running)
       (agents (transcript Sample.justRead))
  /\ Forall (fun x => ToolEntry.status x <> running)
       (tools (transcript Sample.justRead))
  /\ last (List.filter (toolHas completed) (tools (transcript Sample.justRead)))
     = Some (Sample.tool "Read" completed 400 (Some 1000))
  /\ 2500 - 1000 < 2000
  /\ Spinner.detectActivityState 2500 Sample.justRead
     = {| Spinner.state := Spinner.progress;
          Spinner.detail := "0/1 tasks";
          Spinner.startTime := None |}
  /\ Spinner.state (Spinner.detectActivityState 2500 Sample.justRead)
     <> Spinner.success.
Proof.
  split; [reflexivity|]. split; [constructor|].
  split; [repeat constructor; discriminate|].
  split; [reflexivity|]. split; [lia|].
  split; [vm_compute; reflexivity | vm_compute; discriminate].
Qed.

Lemma complete_is_not_all_done (name : string) :
  name ++ " complete!" <> "All tasks done!".
Proof.
  intros H.
  do 15 (destruct name as [|? name]; simpl in H;
         [discriminate H | injection H as _ H]).
  destruct name; discriminate H.
Qed.

Lemma getToolState_not_success (tool : ToolEntry.t) :
  Tamagotchi.getToolState tool <> Tamagotchi.success.
Proof.
  unfold Tamagotchi.getToolState. cbv zeta.
  repeat match goal with
         | |- context [if ?b then _ else _] => destruct b
         end; discriminate.
Qed.

Lemma getToolMode_not_success (tool : ToolEntry.t) :
  Mesmeric.getToolMode tool <> Mesmeric.SUCCESS.
Proof.
  unfold Mesmeric.getToolMode. cbv zeta.
  repeat match goal with
         | |- context [if ?b then _ else _] => destruct b
         end; discriminate.
Qed.

Lemma tamagotchi_later_rules_not_complete (now : Z) (ctx : RenderContext)
  (name : string) :
  Tamagotchi.afterRecentCompletion now ctx
  <> {| Tamagotchi.state := Tamagotchi.success;
        Tamagotchi.detail := name ++ " complete!";
        Tamagotchi.startTime := None |}.
Proof.
  unfold Tamagotchi.afterRecentCompletion. cbv zeta.
  repeat match goal with
         | |- context [if ?b then _ else _] => destruct b
         | |- context [match ?o with Some _ => _ | None => _ end] => destruct o
         end; try discriminate.
  intros [= H]. symmetry in H. exact (complete_is_not_all_done _ H).
Qed.

Lemma mesmeric_later_rules_not_complete (now : Z) (ctx : RenderContext) :
  Mesmeric.afterRecentCompletion now ctx
  <> {| Mesmeric.mode := Mesmeric.SUCCESS; Mesmeric.detail := "Complete!" |}.
Proof.
  unfold Mesmeric.afterRecentCompletion. cbv zeta.
  repeat match goal with
         | |- context [if ?b then _ else _] => destruct b
         | |- context [match ?o with Some _ => _ | None => _ end] => destruct o
         end; discriminate.
Qed.

(** C10. The check for a recent completion looks at the last completed
    tool of the list only. When that entry has no end time, or one that
    is not less than 3 s before the evaluation time (an invalid date
    included), the classifiers of src/render/animation-line.ts and of
    the wave visualizer do not return the recent-completion result,
    "{name} complete!" for any name and "Complete!", whatever the end
    times of the earlier entries are; when no earlier step applies they
    return what the later steps give. The classifiers are total
    functions: there is no error to raise. *)
Theorem C10_only_last_completed (now : Z) (ctx : RenderContext)
  (t : ToolEntry.t) :
  last (List.filter (toolHas completed) (tools (transcript ctx))) = Some t ->
  ToolEntry.endTime t = None
  \/ (exists d, ToolEntry.endTime t = Some d
                /\ JS.elapsedBelow now d 3000 = false) ->
  (forall name,
     Tamagotchi.detectActivityState now ctx
     <> {| Tamagotchi.state := Tamagotchi.success;
           Tamagotchi.detail := name ++ " complete!";
           Tamagotchi.startTime := None |})
  /\ Mesmeric.detectMesmericMode now ctx
     <> {| Mesmeric.mode := Mesmeric.SUCCESS; Mesmeric.detail := "Complete!" |}
  /\ ((90 <=? getContextPercent ctx)%float = false ->
      Forall (fun a => AgentEntry.status a <> running) (agents (transcript ctx)) ->
      Forall (fun x => ToolEntry.status x <> running) (tools (transcript ctx)) ->
      Tamagotchi.detectActivityState now ctx
        = Tamagotchi.afterRecentCompletion now ctx
      /\ Mesmeric.detectMesmericMode now ctx
        = Mesmeric.afterRecentCompletion now ctx).
Proof.
  intros Hl He.
  pose proof (recentCompletion_stale now 3000 _ t Hl He) as Hr.
  split; [|split].
  - intros name. unfold Tamagotchi.detectActivityState. cbv zeta. rewrite Hr.
    destruct (90 <=? getContextPercent ctx)%float; [discriminate|].
    destruct (List.find (agentHas running) _); [discriminate|].
    destruct (last (List.filter (toolHas running) _)) as [r|].
    + intros H. apply (f_equal Tamagotchi.state) in H.
      exact (getToolState_not_success r H).
    + apply tamagotchi_later_rules_not_complete.
  - unfold Mesmeric.detectMesmericMode. cbv zeta. rewrite Hr.
    destruct (90 <=? getContextPercent ctx)%float; [discriminate|].
    destruct (List.find (agentHas running) _); [discriminate|].
    destruct (last (List.filter (toolHas running) _)) as [r|].
    + intros H. apply (f_equal Mesmeric.mode) in H.
      exact (getToolMode_not_success r H).
    + apply mesmeric_later_rules_not_complete.
  - intros Hp Ha Ht.
    unfold Tamagotchi.detectActivityState, Mesmeric.detectMesmericMode.
    cbv zeta.
    rewrite Hp, (no_agent_running _ Ha), (no_tool_running _ Ht), Hr.
    split; reflexivity.
Qed.

Lemma C10_only_last_completed_witness :
  Tamagotchi.detectActivityState 2500 Sample.lastWithoutEnd
    <> {| Tamagotchi.state := Tamagotchi.success;
          Tamagotchi.detail := "Read complete!";
          Tamagotchi.startTime := None |}
  /\ Tamagotchi.detectActivityState 2500 Sample.lastWithoutEnd
     = Tamagotchi.afterRecentCompletion 2500 Sample.lastWithoutEnd.
Proof.
  pose proof (C10_only_last_completed 2500 Sample.lastWithoutEnd
                (Sample.tool "Edit" completed 300 None) eq_refl
                (or_introl eq_refl)) as [Hne [_ Hfall]].
  split; [exact (Hne "Read") |].
  apply Hfall; [reflexivity | constructor | repeat constructor; discriminate].
Defined.

(** ** The tool-name table *)

Ltac case_keyword :=
  match goal with
  | |- context [JS.includes ?n ?kw] =>
      destruct (JS.includes n kw); simpl; try reflexivity
  | |- context [String.eqb ?n ?kw] =>
      destruct (String.eqb n kw); simpl; try reflexivity
  end.

Lemma append_empty (s : string) : s ++ EmptyString = s.
Proof.
  induction s as [|c s IH]; [reflexivity|].
  change (String c (s ++ EmptyString) = String c s). f_equal. exact IH.
Qed.

Lemma includes_self (s : string) : JS.includes s s = true.
Proof.
  apply includes_occurs. exists EmptyString, EmptyString.
  simpl. symmetry. apply append_empty.
Qed.

(** When "ls" occurs in a name only as the whole name, containing "ls"
    and being "ls" are the same test. *)
Lemma includes_ls_equals (n : string) :
  (JS.includes n "ls" = true -> n = "ls") ->
  JS.includes n "ls" = String.eqb n "ls".
Proof.
  intros H. destruct (JS.includes n "ls") eqn:Hi.
  - rewrite (H eq_refl). reflexivity.
  - destruct (String.eqb_spec n "ls") as [->|_]; [|reflexivity].
    rewrite includes_self in Hi. discriminate Hi.
Qed.

(** C3. The conditionals of [getToolState] in
    src/render/animation-line.ts and of [getToolMode] in the wave
    visualizer are the table of the specification, read on the tool's
    name in lower case with the first matching rule winning: "read",
    "glob" or the whole name "ls" give reading/SCAN; "write", "edit",
    "multiedit" or "notebook" give writing/BUILD; "grep", "search" or
    "find" give searching/SCAN; "bash", "shell" or "exec" give
    bash/CRUNCH; "fetch", "web" or "http" give fetch/SCAN; "task" or
    "agent" give agent/CRUNCH; any other name gives thinking/BUILD.
    [getToolState] of unnamed/part_005 has no keyword "notebook"; on the
    names in which "ls" occurs only as the whole name it is the table
    without that keyword. *)
Theorem C3_tool_table (tool : ToolEntry.t) :
  Tamagotchi.getToolState tool
    = ToolTable.state (ToolTable.categoryOf ToolTable.rules tool)
  /\ Mesmeric.getToolMode tool
    = ToolTable.mode (ToolTable.categoryOf ToolTable.rules tool)
  /\ ((JS.includes (JS.toLowerCase (ToolEntry.name tool)) "ls" = true ->
       JS.toLowerCase (ToolEntry.name tool) = "ls") ->
      Spinner.getToolState tool
        = ToolTable.spinnerState
            (ToolTable.categoryOf ToolTable.rulesWithoutNotebook tool)).
Proof.
  unfold Tamagotchi.getToolState, Mesmeric.getToolMode, Spinner.getToolState,
    ToolTable.categoryOf, ToolTable.rules, ToolTable.rulesWithoutNotebook.
  cbv zeta. set (n := JS.toLowerCase (ToolEntry.name tool)).
  split; [|split].
  - simpl. repeat case_keyword.
  - simpl. repeat case_keyword.
  - intros Hls. rewrite (includes_ls_equals n Hls). simpl.
    repeat case_keyword.
Qed.

Lemma C3_tool_table_witness :
  Tamagotchi.getToolState (Sample.tool "WebSearch" running 0 None)
    = Tamagotchi.searching
  /\ Mesmeric.getToolMode (Sample.tool "LS" running 0 None) = Mesmeric.SCAN
  /\ Spinner.getToolState (Sample.tool "Bash" running 0 None) = Spinner.bash.
Proof.
  split; [|split].
  - rewrite (proj1 (C3_tool_table (Sample.tool "WebSearch" running 0 None))).
    reflexivity.
  - rewrite (proj1 (proj2 (C3_tool_table (Sample.tool "LS" running 0 None)))).
    reflexivity.
  - rewrite (proj2 (proj2 (C3_tool_table (Sample.tool "Bash" running 0 None))));
      [reflexivity | vm_compute; discriminate].
Defined.

(** In unnamed/part_005 the test on "ls" is [includes]: a name with "ls"
    anywhere in it is classified [reading], as "KillShell" is, which the
    other two files classify by its "shell". *)
Lemma spinner_ls_anywhere (tool : ToolEntry.t) :
  JS.includes (JS.toLowerCase (ToolEntry.name tool)) "ls" = true ->
  Spinner.getToolState tool = Spinner.reading.
Proof.
  intros H. unfold Spinner.getToolState. cbv zeta. rewrite H.
  rewrite orb_true_r. reflexivity.
Qed.

Lemma killshell_by_file :
  Spinner.getToolState (Sample.tool "KillShell" running 0 None) = Spinner.reading
  /\ Tamagotchi.getToolState (Sample.tool "KillShell" running 0 None)
     = Tamagotchi.bash
  /\ Mesmeric.getToolMode (Sample.tool "KillShell" running 0 None)
     = Mesmeric.CRUNCH.
Proof. repeat split. Qed.

(** A tool named "Notebook" is in the writing rule of the table, and
    [getToolState] of unnamed/part_005 returns [thinking] for it. *)
Lemma C3_spinner_without_notebook :
  ToolTable.categoryOf ToolTable.rules (Sample.tool "Notebook" running 0 None)
    = ToolTable.Writing
  /\ Spinner.getToolState (Sample.tool "Notebook" running 0 None)
     = Spinner.thinking
  /\ Spinner.getToolState (Sample.tool "Notebook" running 0 None)
     <> ToolTable.spinnerState
          (ToolTable.categoryOf ToolTable.rules
             (Sample.tool "Notebook" running 0 None)).
Proof.
  split; [reflexivity | split; [reflexivity | vm_compute; discriminate]].
Qed.

(** ** Pricing tables *)

(** C7. Without an override [mergePricing] returns the reference of the
    base table itself and allocates nothing. With an override it
    allocates a new table and leaves the base table as it was; in the
    new table every family the override holds has both rates of the
    override, every other family has the rates of the base, and
    [lastUpdated] is the override's exactly when the override has one. *)
Theorem C7_mergePricing (h : gmap positive CostTracker.PricingConfig)
  (base : CostTracker.loc) (b : CostTracker.PricingConfig) :
  h !! base = Some b ->
  CostTracker.mergePricing h base None = Some (h, base)
  /\ forall o : CostTracker.Partial.t,
       exists (r : CostTracker.loc) (m : CostTracker.PricingConfig),
         CostTracker.mergePricing h base (Some o) = Some (<[r := m]> h, r)
         /\ h !! r = None
         /\ r <> base
         /\ <[r := m]> h !! base = Some b
         /\ CostTracker.sonnet m
            = match CostTracker.Partial.sonnet o with
              | Some rates => rates
              | None => CostTracker.sonnet b
              end
         /\ CostTracker.opus m
            = match CostTracker.Partial.opus o with
              | Some rates => rates
              | None => CostTracker.opus b
              end
         /\ CostTracker.haiku m
            = match CostTracker.Partial.haiku o with
              | Some rates => rates
              | None => CostTracker.haiku b
              end
         /\ CostTracker.lastUpdated m
            = match CostTracker.Partial.lastUpdated o with
              | Some date => date
              | None => CostTracker.lastUpdated b
              end.
Proof.
  intros Hb. split; [reflexivity|].
  intros o. unfold CostTracker.mergePricing. rewrite Hb. simpl.
  set (r := fresh (dom h)).
  assert (Hfresh : h !! r = None).
  { apply not_elem_of_dom. apply is_fresh. }
  clearbody r.
  assert (Hne : r <> base) by congruence.
  exists r, (CostTracker.merged b o).
  split; [reflexivity|].
  split; [exact Hfresh|]. split; [exact Hne|].
  split; [rewrite lookup_insert_ne by exact Hne; exact Hb|].
  unfold CostTracker.merged. simpl.
  repeat split;
    match goal with
    | |- context [default _ ?x] => destruct x; reflexivity
    end.
Qed.

Lemma C7_mergePricing_witness :
  CostTracker.mergePricing Sample.baseStore 1%positive None
    = Some (Sample.baseStore, 1%positive)
  /\ exists r m,
       CostTracker.mergePricing Sample.baseStore 1%positive
         (Some Sample.opusOverride) = Some (<[r := m]> Sample.baseStore, r)
       /\ r <> 1%positive
       /\ CostTracker.sonnet m = CostTracker.sonnet Sample.basePricing
       /\ CostTracker.opus m
          = {| CostTracker.input := 1; CostTracker.output := 2 |}
       /\ CostTracker.haiku m = CostTracker.haiku Sample.basePricing
       /\ CostTracker.lastUpdated m = "2025-01-01".
Proof.
  destruct (C7_mergePricing Sample.baseStore 1%positive Sample.basePricing
              eq_refl) as [Hsame Hnew].
  split; [exact Hsame|].
  destruct (Hnew Sample.opusOverride)
    as (r & m & Hm & _ & Hr & _ & Hs & Ho & Hh & Hd).
  exists r, m. repeat split; assumption.
Defined.

(** ** Staleness *)

(** C8. [isPricingStale] is a total function. It returns true exactly
    when the date does not parse or lies more than 90 days before the
    current time: true for a date 200 days back, false for a date 10
    days back, for today and for a date in the future. *)
Theorem C8_isPricingStale (parseDate : string -> option Z) (now : Z)
  (dateString : string) :
  (CostTracker.isPricingStale parseDate now dateString = true <->
     parseDate dateString = None
     \/ exists parsed, parseDate dateString = Some parsed
                       /\ 90 * CostTracker.msPerDay < now - parsed)
  /\ (parseDate dateString = None ->
      CostTracker.isPricingStale parseDate now dateString = true)
  /\ (forall parsed, parseDate dateString = Some parsed ->
        (now - parsed = 200 * CostTracker.msPerDay ->
         CostTracker.isPricingStale parseDate now dateString = true)
        /\ (now - parsed = 10 * CostTracker.msPerDay ->
            CostTracker.isPricingStale parseDate now dateString = false)
        /\ (now - parsed <= 0 ->
            CostTracker.isPricingStale parseDate now dateString = false)).
Proof.
  unfold CostTracker.isPricingStale, CostTracker.stalenessThresholdDays,
    CostTracker.msPerDay.
  destruct (parseDate dateString) as [p|]; (split; [|split]).
  - split.
    + intros H. right. exists p. split; [reflexivity|].
      apply Z.ltb_lt in H. exact H.
    + intros [H | [q [[= <-] H]]]; [discriminate H|].
      apply Z.ltb_lt. exact H.
  - intros H. discriminate H.
  - intros q [= <-]. repeat split; intros H.
    + apply Z.ltb_lt. lia.
    + apply Z.ltb_ge. lia.
    + apply Z.ltb_ge. lia.
  - split; [intros _; left; reflexivity | reflexivity].
  - reflexivity.
  - intros q H. discriminate H.
Qed.

(** On 20 July 2025, 200 days after 1 January 2025, the table of the
    tests is stale; a text that is no date is stale too. *)
Lemma C8_isPricingStale_witness :
  CostTracker.isPricingStale CostTracker.parseIsoDate
    (20289 * CostTracker.msPerDay) "2025-01-01" = true
  /\ CostTracker.isPricingStale CostTracker.parseIsoDate
       (20289 * CostTracker.msPerDay) "last week" = true.
Proof.
  destruct (C8_isPricingStale CostTracker.parseIsoDate
              (20289 * CostTracker.msPerDay) "2025-01-01") as [_ [_ H]].
  destruct (C8_isPricingStale CostTracker.parseIsoDate
              (20289 * CostTracker.msPerDay) "last week") as [_ [Hnone _]].
  split.
  - apply (H (20089 * CostTracker.msPerDay) eq_refl). reflexivity.
  - apply Hnone. reflexivity.
Defined.

(** ** The counters of the tracker *)

Section Counters.

Context {JsonObject : Type} (serialize : JsonObject -> string).
Variable rounding : CostTracker.Rounding.

Lemma estimateTokens_nonneg (text : string) :
  0 <= CostTracker.estimateTokens rounding text.
Proof.
  unfold CostTracker.estimateTokens, CostTracker.charsPerToken. cbv zeta.
  destruct rounding; apply Z.div_pos; lia.
Qed.

Lemma countersLe_refl (a : CostTracker.Tracker) : CostTracker.countersLe a a.
Proof. unfold CostTracker.countersLe. lia. Qed.

Lemma countersLe_trans (a b c : CostTracker.Tracker) :
  CostTracker.countersLe a b -> CostTracker.countersLe b c ->
  CostTracker.countersLe a c.
Proof. unfold CostTracker.countersLe. lia. Qed.

Lemma processEvent_grows (e : CostTracker.HudEvent) (t : CostTracker.Tracker) :
  CostTracker.countersLe t (CostTracker.processEvent serialize rounding e t).
Proof.
  unfold CostTracker.processEvent, CostTracker.countersLe.
  destruct (String.eqb (CostTracker.event e) "PostToolUse").
  - destruct (CostTracker.eventInput e) as [i|],
      (CostTracker.response e) as [r|]; simpl;
      try pose proof (estimateTokens_nonneg (serialize i));
      try pose proof (estimateTokens_nonneg (serialize r)); lia.
  - destruct (String.eqb (CostTracker.event e) "UserPromptSubmit");
      [|lia].
    destruct (CostTracker.prompt e) as [p|]; simpl;
      try pose proof (estimateTokens_nonneg p); lia.
Qed.

Lemma processEvent_unknown (e : CostTracker.HudEvent) (t : CostTracker.Tracker) :
  CostTracker.event e <> "PostToolUse" ->
  CostTracker.event e <> "UserPromptSubmit" ->
  CostTracker.processEvent serialize rounding e t = t.
Proof.
  intros H1 H2. unfold CostTracker.processEvent.
  apply String.eqb_neq in H1, H2. rewrite H1, H2. reflexivity.
Qed.

Lemma step_grows (o : CostTracker.Op)
  (s s' : gmap positive CostTracker.PricingConfig * CostTracker.Tracker) :
  CostTracker.isReset o = false ->
  CostTracker.step serialize rounding o s = Some s' ->
  CostTracker.countersLe (snd s) (snd s').
Proof.
  destruct o as [e|m|p|]; simpl; intros Hr Hs; try discriminate Hr.
  - injection Hs as <-. simpl. apply processEvent_grows.
  - injection Hs as <-. unfold CostTracker.countersLe. simpl. lia.
  - unfold CostTracker.setPricing, CostTracker.mergePricing in Hs.
    destruct (fst s !! CostTracker.pricing (snd s)); simpl in Hs;
      [|discriminate Hs].
    injection Hs as <-. unfold CostTracker.countersLe. simpl. lia.
Qed.

Lemma run_grows (ops : list CostTracker.Op) :
  forallb (fun o => negb (CostTracker.isReset o)) ops = true ->
  forall s s', CostTracker.run serialize rounding ops s = Some s' ->
               CostTracker.countersLe (snd s) (snd s').
Proof.
  induction ops as [|o ops IH]; simpl; intros Hops s s' Hrun.
  - injection Hrun as <-. apply countersLe_refl.
  - apply andb_true_iff in Hops as [Ho Hops].
    apply negb_true_iff in Ho.
    destruct (CostTracker.step serialize rounding o s) as [s1|] eqn:Hstep;
      simpl in Hrun; [|discriminate Hrun].
    eapply countersLe_trans.
    + eapply step_grows; eassumption.
    + apply IH; assumption.
Qed.

Lemma step_live (o : CostTracker.Op)
  (s : gmap positive CostTracker.PricingConfig * CostTracker.Tracker) :
  CostTracker.live s ->
  exists s', CostTracker.step serialize rounding o s = Some s' /\ CostTracker.live s'.
Proof.
  unfold CostTracker.live. intros [b Hb].
  destruct o as [e|m|p|]; simpl.
  - eexists. split; [reflexivity|]. simpl.
    replace (CostTracker.pricing (CostTracker.processEvent serialize rounding e (snd s)))
      with (CostTracker.pricing (snd s)); [eauto|].
    unfold CostTracker.processEvent.
    repeat match goal with
           | |- context [if ?c then _ else _] => destruct c
           | |- context [match ?x with Some _ => _ | None => _ end] => destruct x
           end; reflexivity.
  - eexists. split; [reflexivity|]. simpl. eauto.
  - unfold CostTracker.setPricing, CostTracker.mergePricing.
    rewrite Hb. simpl. eexists. split; [reflexivity|]. simpl.
    rewrite lookup_insert_eq. eauto.
  - eexists. split; [reflexivity|]. simpl. eauto.
Qed.

End Counters.

(** C9. No operation of the tracker other than [reset] lowers
    [inputTokens] or [outputTokens]: not one step ([processEvent] of any
    event, [setModel], [setPricing]), and so not a run of such steps,
    whichever way the token estimates are rounded. An event of an
    unknown kind leaves the tracker as it is. [reset] puts
    both counters to zero and keeps the model, the pricing reference and
    the store. From a tracker whose pricing reference is live every
    operation returns such a tracker. *)
Theorem C9_counters_monotone {JsonObject : Type}
  (serialize : JsonObject -> string) (rounding : CostTracker.Rounding)
  (s : gmap positive CostTracker.PricingConfig * CostTracker.Tracker) :
  (forall ops s',
     forallb (fun o => negb (CostTracker.isReset o)) ops = true ->
     CostTracker.run serialize rounding ops s = Some s' ->
     CostTracker.inputTokens (snd s) <= CostTracker.inputTokens (snd s')
     /\ CostTracker.outputTokens (snd s) <= CostTracker.outputTokens (snd s'))
  /\ (forall e s',
        CostTracker.step serialize rounding (CostTracker.ProcessEvent e) s = Some s' ->
        CostTracker.inputTokens (snd s) <= CostTracker.inputTokens (snd s')
        /\ CostTracker.outputTokens (snd s) <= CostTracker.outputTokens (snd s')
        /\ (CostTracker.event e <> "PostToolUse" ->
            CostTracker.event e <> "UserPromptSubmit" -> s' = s))
  /\ (exists s',
        CostTracker.step serialize rounding CostTracker.Reset s = Some s'
        /\ CostTracker.inputTokens (snd s') = 0
        /\ CostTracker.outputTokens (snd s') = 0
        /\ CostTracker.model (snd s') = CostTracker.model (snd s)
        /\ CostTracker.pricing (snd s') = CostTracker.pricing (snd s)
        /\ fst s' = fst s)
  /\ (CostTracker.live s ->
      forall o, exists s',
        CostTracker.step serialize rounding o s = Some s' /\ CostTracker.live s').
Proof.
  split; [|split; [|split]].
  - intros ops s' Hops Hrun. exact (run_grows serialize rounding ops Hops s s' Hrun).
  - intros e s' Hstep.
    pose proof (step_grows serialize rounding (CostTracker.ProcessEvent e) s s'
                  eq_refl Hstep) as [Hi Ho].
    split; [exact Hi|]. split; [exact Ho|].
    intros H1 H2. simpl in Hstep. injection Hstep as <-.
    rewrite (processEvent_unknown serialize rounding e (snd s) H1 H2).
    destruct s; reflexivity.
  - eexists. split; [reflexivity|]. simpl. repeat split.
  - intros Hl o. exact (step_live serialize rounding o s Hl).
Qed.

Lemma C9_counters_monotone_witness :
  exists s',
    CostTracker.run (fun text : string => text) CostTracker.Up
      [CostTracker.ProcessEvent Sample.readEvent;
       CostTracker.SetModel "haiku";
       CostTracker.ProcessEvent Sample.stopEvent]
      (Sample.baseStore, Sample.busyTracker) = Some s'
    /\ 120 <= CostTracker.inputTokens (snd s')
    /\ 45 <= CostTracker.outputTokens (snd s').
Proof.
  eexists. split; [reflexivity|].
  exact (proj1 (C9_counters_monotone (fun text : string => text)
                  CostTracker.Up (Sample.baseStore, Sample.busyTracker))
           [CostTracker.ProcessEvent Sample.readEvent;
            CostTracker.SetModel "haiku";
            CostTracker.ProcessEvent Sample.stopEvent]
           _ eq_refl eq_refl).
Defined.

(* ===================================================================== *)
(** * Further properties of the classifiers *)
(* ===================================================================== *)

(** ** Which entry is selected *)

Lemma find_first {A : Type} (f : A -> bool) (before after : list A) (x : A) :
  Forall (fun y => f y = false) before -> f x = true ->
  List.find f (before ++ x :: after) = Some x.
Proof.
  intros Hb Hx. induction Hb as [|y before Hy _ IH]; simpl.
  - rewrite Hx. reflexivity.
  - rewrite Hy. exact IH.
Qed.

Lemma filter_last {A : Type} (f : A -> bool) (before after : list A) (x : A) :
  f x = true -> Forall (fun y => f y = false) after ->
  last (List.filter f (before ++ x :: after)) = Some x.
Proof.
  intros Hx Ha. rewrite List.filter_app. simpl. rewrite Hx.
  rewrite (filter_all_false f after Ha). apply last_snoc.
Qed.

Lemma find_exists {A : Type} (f : A -> bool) (l : list A) :
  (exists x, List.find f l = Some x) <-> Exists (fun x => f x = true) l.
Proof.
  split.
  - intros [x Hx]. apply List.find_some in Hx as [Hin Hf].
    apply Exists_exists. exists x. split; [apply list_elem_of_In; exact Hin | exact Hf].
  - apply find_some_true.
Qed.

Lemma filter_last_exists {A : Type} (f : A -> bool) (l : list A) :
  (exists x, last (List.filter f l) = Some x) <-> Exists (fun x => f x = true) l.
Proof.
  split.
  - intros [x Hx]. apply last_Some in Hx as [l' Hl'].
    assert (Hin : In x (List.filter f l)).
    { rewrite Hl'. apply in_or_app. right. left. reflexivity. }
    apply List.filter_In in Hin as [Hin Hf].
    apply Exists_exists. exists x. split; [apply list_elem_of_In; exact Hin | exact Hf].
  - induction 1 as [x l Hx | x l _ [y IH]]; simpl.
    + rewrite Hx. destruct (last (List.filter f l)) as [y|] eqn:Hl.
      * exists y. change (last ([x] ++ List.filter f l) = Some y).
        rewrite last_app, Hl. reflexivity.
      * exists x. apply last_None in Hl. rewrite Hl. reflexivity.
    + destruct (f x).
      * exists y. change (last ([x] ++ List.filter f l) = Some y).
        rewrite last_app, IH. reflexivity.
      * exists y. exact IH.
Qed.

Lemma agentHas_running (a : AgentEntry.t) :
  agentHas running a = true <-> AgentEntry.status a = running.
Proof. unfold agentHas. apply bool_decide_eq_true. Qed.

Lemma toolHas_running (t : ToolEntry.t) :
  toolHas running t = true <-> ToolEntry.status t = running.
Proof. unfold toolHas. apply bool_decide_eq_true. Qed.

Lemma not_running_agents (l : list AgentEntry.t) :
  Forall (fun a => AgentEntry.status a <> running) l ->
  Forall (fun a => agentHas running a = false) l.
Proof.
  intros H. eapply Forall_impl; [exact H|].
  intros a Ha. apply bool_decide_eq_false. exact Ha.
Qed.

Lemma not_running_tools (l : list ToolEntry.t) :
  Forall (fun t => ToolEntry.status t <> running) l ->
  Forall (fun t => toolHas running t = false) l.
Proof.
  intros H. eapply Forall_impl; [exact H|].
  intros t Ht. apply bool_decide_eq_false. exact Ht.
Qed.

(** Below the pressure threshold, a running agent decides the result in
    every classifier, whatever the tools and todos are, and among several
    running agents it is the first of the list: its description (its
    type when it has none) cut at 30 characters, 25 in the wave
    visualizer, and its start time. *)
Theorem first_running_agent_wins (now : Z) (ctx : RenderContext)
  (before after : list AgentEntry.t) (a : AgentEntry.t) :
  (90 <=? getContextPercent ctx)%float = false ->
  agents (transcript ctx) = (before ++ a :: after)%list ->
  Forall (fun b => AgentEntry.status b <> running) before ->
  AgentEntry.status a = running ->
  Tamagotchi.detectActivityState now ctx
    = {| Tamagotchi.state := Tamagotchi.agent;
         Tamagotchi.detail := truncate (agentLabel a) 30;
         Tamagotchi.startTime := Some (AgentEntry.startTime a) |}
  /\ Spinner.detectActivityState now ctx
    = {| Spinner.state := Spinner.agent;
         Spinner.detail := truncate (agentLabel a) 30;
         Spinner.startTime := Some (AgentEntry.startTime a) |}
  /\ Mesmeric.detectMesmericMode now ctx
    = {| Mesmeric.mode := Mesmeric.CRUNCH;
         Mesmeric.detail := truncate (agentLabel a) 25 |}.
Proof.
  intros Hp Hag Hb Ha.
  assert (Hfind : List.find (agentHas running) (agents (transcript ctx)) = Some a).
  { rewrite Hag. apply find_first; [apply not_running_agents; exact Hb|].
    apply agentHas_running. exact Ha. }
  unfold Tamagotchi.detectActivityState, Spinner.detectActivityState,
    Mesmeric.detectMesmericMode. cbv zeta. rewrite Hp, Hfind.
  split; [reflexivity | split; reflexivity].
Qed.

Lemma first_running_agent_wins_witness :
  Tamagotchi.detectActivityState 2000 Fixture.agentsBusy
  = {| Tamagotchi.state := Tamagotchi.agent;
       Tamagotchi.detail := "Find the parser";
       Tamagotchi.startTime := Some (JS.MkDate 500) |}.
Proof.
  refine (proj1 (first_running_agent_wins 2000 Fixture.agentsBusy
                   [Fixture.planned] [Fixture.review] Sample.explore
                   eq_refl eq_refl _ eq_refl)).
  constructor; [discriminate|constructor].
Defined.

(** Below the pressure threshold and with no agent running, the last
    running tool of the list decides the result, whatever completed
    tools and todos there are: its state by [getToolState], its target
    cut at 25 characters (its whole name when it has no target), and its
    start time. *)
Theorem last_running_tool_wins (now : Z) (ctx : RenderContext)
  (before after : list ToolEntry.t) (t : ToolEntry.t) :
  (90 <=? getContextPercent ctx)%float = false ->
  Forall (fun a => AgentEntry.status a <> running) (agents (transcript ctx)) ->
  tools (transcript ctx) = (before ++ t :: after)%list ->
  ToolEntry.status t = running ->
  Forall (fun u => ToolEntry.status u <> running) after ->
  Tamagotchi.detectActivityState now ctx
    = {| Tamagotchi.state := Tamagotchi.getToolState t;
         Tamagotchi.detail := getToolDetail t;
         Tamagotchi.startTime := Some (ToolEntry.startTime t) |}
  /\ Spinner.detectActivityState now ctx
    = {| Spinner.state := Spinner.getToolState t;
         Spinner.detail := getToolDetail t;
         Spinner.startTime := Some (ToolEntry.startTime t) |}
  /\ Mesmeric.detectMesmericMode now ctx
    = {| Mesmeric.mode := Mesmeric.getToolMode t;
         Mesmeric.detail := getToolDetail t |}.
Proof.
  intros Hp Hag Htools Ht Hafter.
  assert (Hlast : last (List.filter (toolHas running) (tools (transcript ctx)))
                  = Some t).
  { rewrite Htools. apply filter_last; [apply toolHas_running; exact Ht|].
    apply not_running_tools. exact Hafter. }
  unfold Tamagotchi.detectActivityState, Spinner.detectActivityState,
    Mesmeric.detectMesmericMode. cbv zeta.
  rewrite Hp, (no_agent_running _ Hag), Hlast.
  split; [reflexivity | split; reflexivity].
Qed.

Lemma last_running_tool_wins_witness :
  Spinner.detectActivityState 2000 Fixture.toolsBusy
  = {| Spinner.state := Spinner.bash;
       Spinner.detail := "Bash";
       Spinner.startTime := Some (JS.MkDate 900) |}.
Proof.
  refine (proj1 (proj2 (last_running_tool_wins 2000 Fixture.toolsBusy
                   [Sample.tool "Grep" running 100 None]
                   [Sample.tool "Read" completed 400 (Some 1000)]
                   (Sample.tool "Bash" running 900 None)
                   eq_refl _ eq_refl eq_refl _)));
    (constructor; [discriminate|constructor]).
Defined.

(** ** Start times *)

Lemma tamagotchi_later_rules_no_start (now : Z) (ctx : RenderContext) :
  Tamagotchi.startTime (Tamagotchi.afterRecentCompletion now ctx) = None.
Proof.
  unfold Tamagotchi.afterRecentCompletion. cbv zeta.
  repeat match goal with
         | |- context [if ?b then _ else _] => destruct b
         | |- context [match ?o with Some _ => _ | None => _ end] => destruct o
         end; reflexivity.
Qed.

Lemma running_agent_exists (l : list AgentEntry.t) :
  (exists a, List.find (agentHas running) l = Some a)
  <-> Exists (fun a => AgentEntry.status a = running) l.
Proof.
  rewrite find_exists.
  split; intros H; (eapply Exists_impl; [exact H|]); intros a;
    apply agentHas_running.
Qed.

Lemma running_tool_exists (l : list ToolEntry.t) :
  (exists t, last (List.filter (toolHas running) l) = Some t)
  <-> Exists (fun t => ToolEntry.status t = running) l.
Proof.
  rewrite filter_last_exists.
  split; intros H; (eapply Exists_impl; [exact H|]); intros t;
    apply toolHas_running.
Qed.

(** The result of [detectActivityState] carries a start time exactly
    when the context percentage is below the pressure threshold and an
    agent or a tool is running: pressure, completions, todos and idle
    states never show an elapsed time. *)
Theorem start_time_iff_running (now : Z) (ctx : RenderContext) :
  (Tamagotchi.startTime (Tamagotchi.detectActivityState now ctx) <> None
   <-> (90 <=? getContextPercent ctx)%float = false
       /\ (Exists (fun a => AgentEntry.status a = running) (agents (transcript ctx))
           \/ Exists (fun t => ToolEntry.status t = running) (tools (transcript ctx))))
  /\ (Spinner.startTime (Spinner.detectActivityState now ctx) <> None
      <-> (90 <=? getContextPercent ctx)%float = false
          /\ (Exists (fun a => AgentEntry.status a = running) (agents (transcript ctx))
              \/ Exists (fun t => ToolEntry.status t = running) (tools (transcript ctx)))).
Proof.
  unfold Tamagotchi.detectActivityState, Spinner.detectActivityState. cbv zeta.
  destruct (90 <=? getContextPercent ctx)%float.
  { split; (split; [intros H; contradiction H; reflexivity
                   | intros [H _]; discriminate H]). }
  destruct (List.find (agentHas running) (agents (transcript ctx))) as [a|] eqn:Ha.
  { assert (He : Exists (fun a => AgentEntry.status a = running)
                   (agents (transcript ctx))).
    { apply running_agent_exists. exists a. exact Ha. }
    split; (split; [intros _; split; [reflexivity | left; exact He]
                   | intros _; discriminate]). }
  assert (Hna : ~ Exists (fun a => AgentEntry.status a = running)
                  (agents (transcript ctx))).
  { intros He. apply running_agent_exists in He as [a Ha']. congruence. }
  destruct (last (List.filter (toolHas running) (tools (transcript ctx))))
    as [t|] eqn:Ht.
  { assert (He : Exists (fun t => ToolEntry.status t = running)
                   (tools (transcript ctx))).
    { apply running_tool_exists. exists t. exact Ht. }
    split; (split; [intros _; split; [reflexivity | right; exact He]
                   | intros _; discriminate]). }
  assert (Hnt : ~ Exists (fun t => ToolEntry.status t = running)
                  (tools (transcript ctx))).
  { intros He. apply running_tool_exists in He as [t Ht']. congruence. }
  split; split.
  - intros H. contradiction H.
    destruct (recentCompletion now 3000 _); [reflexivity|].
    apply tamagotchi_later_rules_no_start.
  - intros [_ [H|H]]; contradiction.
  - intros H. contradiction H.
    repeat match goal with
           | |- context [if ?b then _ else _] => destruct b
           | |- context [match ?o with Some _ => _ | None => _ end] => destruct o
           end; reflexivity.
  - intros [_ [H|H]]; contradiction.
Qed.

(** ** The fallback states *)

Lemma all_done_iff (l : list TodoItem.t) :
  ((0 <? length l)%nat && forallb (todoHas TodoItem.completed) l) = true
  <-> l <> [] /\ Forall (fun d => TodoItem.status d = TodoItem.completed) l.
Proof.
  assert (Hall : forallb (todoHas TodoItem.completed) l = true
                 <-> Forall (fun d => TodoItem.status d = TodoItem.completed) l).
  { induction l as [|d l IH]; simpl.
    - split; [constructor | reflexivity].
    - rewrite andb_true_iff, IH. unfold todoHas at 1.
      rewrite bool_decide_eq_true. split.
      + intros [Hd Hl]. constructor; assumption.
      + intros H. inversion H; subst. split; assumption. }
  rewrite andb_true_iff, Hall, Nat.ltb_lt.
  split; intros [Hlen H]; (split; [|exact H]).
  - intros ->. simpl in Hlen. lia.
  - destruct l; [contradiction | simpl; lia].
Qed.

Lemma in_progress_none_iff (l : list TodoItem.t) :
  List.find (todoHas TodoItem.in_progress) l = None
  <-> Forall (fun d => TodoItem.status d <> TodoItem.in_progress) l.
Proof.
  split; [|apply no_todo_in_progress].
  induction l as [|d l IH]; simpl; [constructor|].
  destruct (todoHas TodoItem.in_progress d) eqn:Hd; [discriminate|].
  intros H. constructor; [|exact (IH H)].
  apply bool_decide_eq_false in Hd. exact Hd.
Qed.

Lemma no_history_iff {A B : Type} (l : list A) (l' : list B) :
  ((0 <? length l)%nat || (0 <? length l')%nat) = false <-> l = [] /\ l' = [].
Proof.
  rewrite orb_false_iff, !Nat.ltb_ge.
  split; intros [H H'].
  - destruct l, l'; simpl in *; try lia. split; reflexivity.
  - subst. simpl. lia.
Qed.

Lemma getToolState_not_sleeping (tool : ToolEntry.t) :
  Tamagotchi.getToolState tool <> Tamagotchi.sleeping.
Proof.
  unfold Tamagotchi.getToolState. cbv zeta.
  repeat match goal with
         | |- context [if ?b then _ else _] => destruct b
         end; discriminate.
Qed.

Lemma getToolMode_not_sleep (tool : ToolEntry.t) :
  Mesmeric.getToolMode tool <> Mesmeric.SLEEP.
Proof.
  unfold Mesmeric.getToolMode. cbv zeta.
  repeat match goal with
         | |- context [if ?b then _ else _] => destruct b
         end; discriminate.
Qed.

Lemma spinner_getToolState_not_idle (tool : ToolEntry.t) :
  Spinner.getToolState tool <> Spinner.idle.
Proof.
  unfold Spinner.getToolState. cbv zeta.
  repeat match goal with
         | |- context [if ?b then _ else _] => destruct b
         end; discriminate.
Qed.

(** The terminal fallback is returned exactly when the context
    percentage is below the pressure threshold, there is no tool and no
    agent entry at all, running or not, no todo is in progress, and the
    todos are not all completed: a snapshot whose todos are all pending
    still gets it, and one finished tool in the history rules it out for
    good. The fallback is [sleeping] in src/render/animation-line.ts,
    [SLEEP] in the wave visualizer and [idle] in unnamed/part_005. *)
Theorem fallback_iff_no_history (now : Z) (ctx : RenderContext) :
  let nothing :=
    (90 <=? getContextPercent ctx)%float = false
    /\ tools (transcript ctx) = []
    /\ agents (transcript ctx) = []
    /\ Forall (fun d => TodoItem.status d <> TodoItem.in_progress)
         (todos (transcript ctx))
    /\ ~ (todos (transcript ctx) <> []
          /\ Forall (fun d => TodoItem.status d = TodoItem.completed)
               (todos (transcript ctx))) in
  (Tamagotchi.state (Tamagotchi.detectActivityState now ctx) = Tamagotchi.sleeping
   <-> nothing)
  /\ (Mesmeric.mode (Mesmeric.detectMesmericMode now ctx) = Mesmeric.SLEEP
      <-> nothing)
  /\ (Spinner.state (Spinner.detectActivityState now ctx) = Spinner.idle
      <-> nothing).
Proof.
  cbv zeta.
  assert (Hnothing :
    ((90 <=? getContextPercent ctx)%float = false
     /\ tools (transcript ctx) = []
     /\ agents (transcript ctx) = []
     /\ Forall (fun d => TodoItem.status d <> TodoItem.in_progress)
          (todos (transcript ctx))
     /\ ~ (todos (transcript ctx) <> []
           /\ Forall (fun d => TodoItem.status d = TodoItem.completed)
                (todos (transcript ctx))))
    <-> ((90 <=? getContextPercent ctx)%float = false
         /\ ((0 <? length (tools (transcript ctx)))%nat
             || (0 <? length (agents (transcript ctx)))%nat) = false
         /\ List.find (todoHas TodoItem.in_progress) (todos (transcript ctx))
            = None
         /\ ((0 <? length (todos (transcript ctx)))%nat
             && forallb (todoHas TodoItem.completed) (todos (transcript ctx)))
            = false)).
  { split.
    - intros (Hp & Ht & Ha & Hi & Hd).
      split; [exact Hp|]. split; [apply no_history_iff; split; assumption|].
      split; [apply in_progress_none_iff; exact Hi|].
      apply not_true_iff_false. intros H. apply Hd. apply all_done_iff. exact H.
    - intros (Hp & Hh & Hi & Hd). apply no_history_iff in Hh as [Ht Ha].
      split; [exact Hp|]. split; [exact Ht|]. split; [exact Ha|].
      split; [apply in_progress_none_iff; exact Hi|].
      intros H. apply all_done_iff in H. congruence. }
  rewrite Hnothing. clear Hnothing.
  unfold Tamagotchi.detectActivityState, Tamagotchi.afterRecentCompletion,
    Mesmeric.detectMesmericMode, Mesmeric.afterRecentCompletion,
    Spinner.detectActivityState. cbv zeta.
  destruct (90 <=? getContextPercent ctx)%float.
  { repeat split; try discriminate; intros [H _]; discriminate H. }
  destruct ((0 <? length (tools (transcript ctx)))%nat
            || (0 <? length (agents (transcript ctx)))%nat) eqn:Hh.
  - (* some history: never the fallback *)
    split; [|split]; (split; [|intros (_ & H & _); discriminate H]);
      intros H; exfalso; revert H.
    + destruct (List.find (agentHas running) _); [discriminate|].
      destruct (last (List.filter (toolHas running) _)) as [t|];
        [apply getToolState_not_sleeping|].
      destruct (recentCompletion now 3000 _); [discriminate|].
      destruct ((0 <? length (todos (transcript ctx)))%nat && _); [discriminate|].
      destruct (List.find (todoHas TodoItem.in_progress) _); [discriminate|].
      destruct (lastToolRecent now _); discriminate.
    + destruct (List.find (agentHas running) _); [discriminate|].
      destruct (last (List.filter (toolHas running) _)) as [t|];
        [apply getToolMode_not_sleep|].
      destruct (recentCompletion now 3000 _); [discriminate|].
      destruct ((0 <? length (todos (transcript ctx)))%nat && _); [discriminate|].
      destruct (List.find (todoHas TodoItem.in_progress) _); [discriminate|].
      destruct (lastToolRecent now _); discriminate.
    + destruct (List.find (agentHas running) _); [discriminate|].
      destruct (last (List.filter (toolHas running) _)) as [t|];
        [apply spinner_getToolState_not_idle|].
      destruct (List.find (todoHas TodoItem.in_progress) _); [discriminate|].
      destruct (recentCompletion now 2000 _); [discriminate|].
      destruct ((0 <? length (todos (transcript ctx)))%nat && _); discriminate.
  - (* no history at all *)
    apply no_history_iff in Hh as [Ht Ha]. rewrite Ht, Ha. simpl.
    destruct (List.find (todoHas TodoItem.in_progress) _) as [d|];
      destruct ((0 <? length (todos (transcript ctx)))%nat && _);
      simpl; (split; [|split]); split;
      try discriminate;
      try (intros (_ & _ & H & _); discriminate H);
      try (intros (_ & _ & _ & H); discriminate H);
      try (intros _; repeat split).
Qed.

(** ** Time *)

Lemma last_in {A : Type} (l : list A) (x : A) : last l = Some x -> In x l.
Proof.
  intros H. apply last_Some in H as [l' ->].
  apply in_or_app. right. left. reflexivity.
Qed.

Lemma elapsedBelow_settled (e bound now : Z) :
  bound <= 10000 -> e + 10000 <= now ->
  JS.elapsedBelow now (JS.MkDate e) bound = false.
Proof.
  intros Hb He. unfold JS.elapsedBelow. simpl. apply Z.ltb_ge. lia.
Qed.

Lemma recentCompletion_settled (now window : Z) (f : ToolEntry.t -> bool)
  (l : list ToolEntry.t) :
  window <= 10000 ->
  Forall (fun t => forall e, ToolEntry.endTime t = Some (JS.MkDate e) ->
                             e + 10000 <= now) l ->
  recentCompletion now window (List.filter f l) = None.
Proof.
  intros Hw Hl. unfold recentCompletion.
  destruct (last (List.filter f l)) as [t|] eqn:Ht; simpl; [|reflexivity].
  apply last_in, List.filter_In in Ht as [Hin _].
  rewrite Forall_forall in Hl. apply list_elem_of_In in Hin. specialize (Hl t Hin).
  destruct (ToolEntry.endTime t) as [[e|]|]; simpl; try reflexivity.
  rewrite (elapsedBelow_settled e window now Hw (Hl e eq_refl)). reflexivity.
Qed.

Lemma lastToolRecent_settled (now : Z) (l : list ToolEntry.t) :
  Forall (fun t => forall e, ToolEntry.endTime t = Some (JS.MkDate e) ->
                             e + 10000 <= now) l ->
  lastToolRecent now l = false.
Proof.
  intros Hl. unfold lastToolRecent.
  destruct (last l) as [t|] eqn:Ht; simpl; [|reflexivity].
  apply last_in in Ht. rewrite Forall_forall in Hl.
  apply list_elem_of_In in Ht. specialize (Hl t Ht).
  destruct (ToolEntry.endTime t) as [[e|]|]; simpl; try reflexivity.
  apply elapsedBelow_settled; [lia | exact (Hl e eq_refl)].
Qed.

(** The evaluation time matters through the end times of the tools
    only, and for ten seconds at most: at two evaluation times that both
    lie ten seconds or more after every end time of the snapshot, each
    classifier returns the same result. *)
Theorem settled_after_ten_seconds (now now' : Z) (ctx : RenderContext) :
  Forall (fun t => forall e, ToolEntry.endTime t = Some (JS.MkDate e) ->
                             e + 10000 <= now) (tools (transcript ctx)) ->
  Forall (fun t => forall e, ToolEntry.endTime t = Some (JS.MkDate e) ->
                             e + 10000 <= now') (tools (transcript ctx)) ->
  Tamagotchi.detectActivityState now ctx = Tamagotchi.detectActivityState now' ctx
  /\ Spinner.detectActivityState now ctx = Spinner.detectActivityState now' ctx
  /\ Mesmeric.detectMesmericMode now ctx = Mesmeric.detectMesmericMode now' ctx.
Proof.
  intros H H'.
  unfold Tamagotchi.detectActivityState, Tamagotchi.afterRecentCompletion,
    Mesmeric.detectMesmericMode, Mesmeric.afterRecentCompletion,
    Spinner.detectActivityState. cbv zeta.
  rewrite !(recentCompletion_settled now 3000 _ _ ltac:(lia) H).
  rewrite !(recentCompletion_settled now' 3000 _ _ ltac:(lia) H').
  rewrite (lastToolRecent_settled now _ H), (lastToolRecent_settled now' _ H').
  assert (Hs : forall n, Forall (fun t => forall e,
                  ToolEntry.endTime t = Some (JS.MkDate e) -> e + 10000 <= n)
                (tools (transcript ctx)) ->
              recentCompletion n 2000
                (Spinner.lastThree
                   (List.filter (toolHas completed) (tools (transcript ctx))))
              = None).
  { intros n Hn.
    pose proof (recentCompletion_settled n 2000 (toolHas completed) _
                  ltac:(lia) Hn) as Hr.
    unfold recentCompletion in *. rewrite last_lastThree. exact Hr. }
  rewrite (Hs now H), (Hs now' H').
  split; [reflexivity | split; reflexivity].
Qed.

Lemma settled_after_ten_seconds_witness :
  Tamagotchi.detectActivityState 11000 Sample.justRead
  = Tamagotchi.detectActivityState 86400000 Sample.justRead.
Proof.
  refine (proj1 (settled_after_ten_seconds 11000 86400000 Sample.justRead _ _));
    (constructor; [|constructor]); intros e [= <-]; lia.
Defined.

(** ** The progress counter of unnamed/part_005 *)

Lemma filter_length_le {A : Type} (f : A -> bool) (l : list A) :
  (length (List.filter f l) <= length l)%nat.
Proof.
  induction l as [|x l IH]; simpl; [lia|].
  destruct (f x); simpl; lia.
Qed.

Lemma completed_below_total (l : list TodoItem.t) :
  Exists (fun d => TodoItem.status d = TodoItem.in_progress) l ->
  (length (List.filter (todoHas TodoItem.completed) l) < length l)%nat.
Proof.
  induction 1 as [d l Hd | d l _ IH]; simpl.
  - unfold todoHas at 1. rewrite Hd. simpl.
    pose proof (filter_length_le (todoHas TodoItem.completed) l). lia.
  - destruct (todoHas TodoItem.completed d); simpl; lia.
Qed.

Lemma spinner_getToolState_not_progress (tool : ToolEntry.t) :
  Spinner.getToolState tool <> Spinner.progress.
Proof.
  unfold Spinner.getToolState. cbv zeta.
  repeat match goal with
         | |- context [if ?b then _ else _] => destruct b
         end; discriminate.
Qed.

(** In unnamed/part_005 the state [progress] is returned exactly when
    the context percentage is below the pressure threshold, no agent and
    no tool is running, and some todo is in progress; a recent completion
    does not matter. Its detail counts the completed todos against all of
    them, and the first count is always below the second. *)
Theorem spinner_progress_iff (now : Z) (ctx : RenderContext) :
  let working :=
    (90 <=? getContextPercent ctx)%float = false
    /\ Forall (fun a => AgentEntry.status a <> running) (agents (transcript ctx))
    /\ Forall (fun t => ToolEntry.status t <> running) (tools (transcript ctx))
    /\ Exists (fun d => TodoItem.status d = TodoItem.in_progress)
         (todos (transcript ctx)) in
  let done := length (List.filter (todoHas TodoItem.completed)
                        (todos (transcript ctx))) in
  let total := length (todos (transcript ctx)) in
  (Spinner.state (Spinner.detectActivityState now ctx) = Spinner.progress
   <-> working)
  /\ (working ->
      Spinner.detectActivityState now ctx
        = {| Spinner.state := Spinner.progress;
             Spinner.detail :=
               Spinner.count done ++ "/" ++ Spinner.count total ++ " tasks";
             Spinner.startTime := None |}
      /\ (done < total)%nat).
Proof.
  cbv zeta. split.
  - unfold Spinner.detectActivityState. cbv zeta. split.
    + intros H.
      destruct (90 <=? getContextPercent ctx)%float; [discriminate H|].
      destruct (List.find (agentHas running) _) as [a|] eqn:Ha;
        [discriminate H|].
      destruct (last (List.filter (toolHas running) _)) as [t|] eqn:Ht;
        [exfalso; exact (spinner_getToolState_not_progress t H)|].
      destruct (List.find (todoHas TodoItem.in_progress) _) as [d|] eqn:Hd.
      * split; [reflexivity|]. split; [|split].
        -- apply Forall_forall. intros a Hin Hr.
           assert (He : Exists (fun a => AgentEntry.status a = running)
                          (agents (transcript ctx))).
           { apply Exists_exists. exists a. split; assumption. }
           apply running_agent_exists in He as [a' Ha']. congruence.
        -- apply Forall_forall. intros t Hin Hr.
           assert (He : Exists (fun t => ToolEntry.status t = running)
                          (tools (transcript ctx))).
           { apply Exists_exists. exists t. split; assumption. }
           apply running_tool_exists in He as [t' Ht']. congruence.
        -- assert (He : Exists (fun x => todoHas TodoItem.in_progress x = true)
                          (todos (transcript ctx))).
           { apply find_exists. exists d. exact Hd. }
           eapply Exists_impl; [exact He|]. intros x Hx.
           apply bool_decide_eq_true in Hx. exact Hx.
      * exfalso. revert H.
        destruct (recentCompletion now 2000 _); [discriminate|].
        destruct ((0 <? length (todos (transcript ctx)))%nat && _);
          [discriminate|].
        destruct ((0 <? length (tools (transcript ctx)))%nat || _);
          discriminate.
    + intros (Hp & Ha & Ht & Hd).
      rewrite Hp, (no_agent_running _ Ha), (no_tool_running _ Ht).
      destruct (some_todo_in_progress _ Hd) as [d ->]. reflexivity.
  - intros (Hp & Ha & Ht & Hd). split.
    + unfold Spinner.detectActivityState. cbv zeta.
      rewrite Hp, (no_agent_running _ Ha), (no_tool_running _ Ht).
      destruct (some_todo_in_progress _ Hd) as [d ->]. reflexivity.
    + apply completed_below_total. exact Hd.
Qed.

(** ** Widths *)

Lemma length_substring_le (n : nat) (s : string) :
  String.length (String.substring 0 n s) = Nat.min n (String.length s).
Proof.
  revert s. induction n as [|n IH]; intros [|c s]; simpl; try reflexivity.
  rewrite IH. reflexivity.
Qed.

Lemma substring_prefix (n : nat) (s : string) :
  exists rest, s = String.substring 0 n s ++ rest.
Proof.
  revert s. induction n as [|n IH]; intros [|c s]; simpl.
  - exists EmptyString. reflexivity.
  - exists (String c s). reflexivity.
  - exists EmptyString. reflexivity.
  - destruct (IH s) as [rest Hrest]. exists rest.
    change (String c s = String c (String.substring 0 n s ++ rest)).
    f_equal. exact Hrest.
Qed.

Lemma truncate_le (text : string) (maxLen : Z) :
  3 <= maxLen -> Z.of_nat (String.length (truncate text maxLen)) <= maxLen.
Proof.
  intros Hm.
  destruct (Z.le_gt_cases (Z.of_nat (String.length text)) maxLen) as [Hs|Hl].
  - rewrite truncate_short by exact Hs. exact Hs.
  - destruct (truncate_long text maxLen) as [_ Hlen]; lia.
Qed.

(** For a maximum of three or more, [truncate] never returns more than
    [maxLen] characters, returns either the text itself or a prefix of
    it followed by "...", and truncating twice is truncating once. Below
    three the subtraction [maxLen - 3] is negative and [slice] counts it
    from the end: a text longer than [maxLen] loses [3 - maxLen]
    characters and gains the three dots, so the result is longer than
    [maxLen]. *)
Theorem truncate_width (text : string) (maxLen : Z) :
  (3 <= maxLen ->
     Z.of_nat (String.length (truncate text maxLen)) <= maxLen
     /\ (truncate text maxLen = text
         \/ exists kept rest, text = kept ++ rest
                              /\ truncate text maxLen = kept ++ "...")
     /\ truncate (truncate text maxLen) maxLen = truncate text maxLen)
  /\ (maxLen < 3 -> maxLen < Z.of_nat (String.length text) ->
      Z.of_nat (String.length (truncate text maxLen))
        = Z.max (Z.of_nat (String.length text) + maxLen - 3) 0 + 3
      /\ maxLen < Z.of_nat (String.length (truncate text maxLen))).
Proof.
  split.
  - intros Hm. split; [apply truncate_le; exact Hm|]. split.
    + destruct (Z.le_gt_cases (Z.of_nat (String.length text)) maxLen) as [Hs|Hl].
      * left. apply truncate_short. exact Hs.
      * right. destruct (truncate_long text maxLen) as [Heq _]; [lia|].
        destruct (substring_prefix (Z.to_nat (maxLen - 3)) text) as [rest Hr].
        exists (String.substring 0 (Z.to_nat (maxLen - 3)) text), rest.
        split; [exact Hr | exact Heq].
    + apply truncate_short. apply truncate_le. exact Hm.
  - intros Hm Hl.
    assert (Hlen : Z.of_nat (String.length (truncate text maxLen))
                   = Z.max (Z.of_nat (String.length text) + maxLen - 3) 0 + 3).
    { unfold truncate.
      destruct (Z.leb_spec (Z.of_nat (String.length text)) maxLen); [lia|].
      rewrite length_append. unfold JS.slice, JS.clampIndex. simpl.
      destruct (Z.ltb_spec (maxLen - 3) 0); [|lia].
      rewrite (Z.min_l 0) by lia. rewrite Z.sub_0_r.
      rewrite length_substring_le. lia. }
    split; [exact Hlen | lia].
Qed.

Lemma truncate_width_witness :
  Z.of_nat (String.length (truncate "a long description of the task at hand" 30))
    <= 30
  /\ Z.of_nat (String.length (truncate "abcdef" 2)) = 8.
Proof.
  pose proof (truncate_width "a long description of the task at hand" 30)
    as [H _].
  pose proof (truncate_width "abcdef" 2) as [_ H'].
  split.
  - apply H. lia.
  - destruct H' as [H' _]; [lia | simpl; lia | exact H'].
Defined.

Lemma getToolDetail_le (t : ToolEntry.t) (bound : Z) :
  25 <= bound ->
  Z.of_nat (String.length (ToolEntry.name t)) <= bound ->
  Z.of_nat (String.length (getToolDetail t)) <= bound.
Proof.
  intros Hb Hn. unfold getToolDetail.
  destruct (JS.truthyString (ToolEntry.target t)) as [target|]; [|exact Hn].
  pose proof (truncate_le target 25 ltac:(lia)). lia.
Qed.

(** Below the pressure threshold the detail fits the width the
    truncations aim at whenever the tool names are short: at most 30
    characters from [detectActivityState] of src/render/animation-line.ts
    when every tool name has at most 20, and at most 25 from
    [detectMesmericMode] when every tool name has at most 25. Names are
    the one part of a detail that is never cut. *)
Theorem detail_width (now : Z) (ctx : RenderContext) :
  (90 <=? getContextPercent ctx)%float = false ->
  (Forall (fun t => Z.of_nat (String.length (ToolEntry.name t)) <= 20)
     (tools (transcript ctx)) ->
   Z.of_nat (String.length
               (Tamagotchi.detail (Tamagotchi.detectActivityState now ctx)))
     <= 30)
  /\ (Forall (fun t => Z.of_nat (String.length (ToolEntry.name t)) <= 25)
        (tools (transcript ctx)) ->
      Z.of_nat (String.length
                  (Mesmeric.detail (Mesmeric.detectMesmericMode now ctx)))
        <= 25).
Proof.
  intros Hp.
  assert (Hsel : forall (P : ToolEntry.t -> Prop) f t,
             Forall P (tools (transcript ctx)) ->
             last (List.filter f (tools (transcript ctx))) = Some t -> P t).
  { intros P f t HP Hl. apply last_in, List.filter_In in Hl as [Hin _].
    rewrite Forall_forall in HP. apply HP. apply list_elem_of_In. exact Hin. }
  unfold Tamagotchi.detectActivityState, Tamagotchi.afterRecentCompletion,
    Mesmeric.detectMesmericMode, Mesmeric.afterRecentCompletion. cbv zeta.
  rewrite Hp. split; intros Hnames.
  - destruct (List.find (agentHas running) _) as [a|]; simpl;
      [apply truncate_le; lia|].
    destruct (last (List.filter (toolHas running) _)) as [t|] eqn:Ht; simpl.
    { apply getToolDetail_le; [lia|].
      pose proof (Hsel _ _ t Hnames Ht) as Hn. simpl in Hn. lia. }
    destruct (recentCompletion now 3000 _) as [r|] eqn:Hr; simpl.
    { unfold recentCompletion in Hr.
      destruct (last (List.filter (toolHas completed) _)) as [r'|] eqn:Hl;
        simpl in Hr; [|discriminate Hr].
      destruct (ToolEntry.endTime r') as [e|]; simpl in Hr; [|discriminate Hr].
      destruct (JS.elapsedBelow now e 3000); [|discriminate Hr].
      injection Hr as <-.
      pose proof (Hsel _ _ r' Hnames Hl) as Hn. simpl in Hn.
      rewrite length_append. simpl. lia. }
    destruct ((0 <? length (todos (transcript ctx)))%nat && _); simpl; [lia|].
    destruct (List.find (todoHas TodoItem.in_progress) _) as [d|]; simpl.
    { pose proof (truncate_le (TodoItem.content d) 25 ltac:(lia)). lia. }
    destruct ((0 <? length (tools (transcript ctx)))%nat || _); simpl; [|lia].
    destruct (lastToolRecent now _); simpl; lia.
  - destruct (List.find (agentHas running) _) as [a|]; simpl;
      [apply truncate_le; lia|].
    destruct (last (List.filter (toolHas running) _)) as [t|] eqn:Ht; simpl.
    { apply getToolDetail_le; [lia|].
      exact (Hsel _ _ t Hnames Ht). }
    destruct (recentCompletion now 3000 _); simpl; [lia|].
    destruct ((0 <? length (todos (transcript ctx)))%nat && _); simpl; [lia|].
    destruct (List.find (todoHas TodoItem.in_progress) _) as [d|]; simpl.
    { apply truncate_le. lia. }
    destruct ((0 <? length (tools (transcript ctx)))%nat || _); simpl; [|lia].
    destruct (lastToolRecent now _); simpl; lia.
Qed.

Lemma detail_width_witness :
  Z.of_nat (String.length
              (Tamagotchi.detail
                 (Tamagotchi.detectActivityState 2000 Fixture.agentsBusy)))
  <= 30.
Proof.
  refine (proj1 (detail_width 2000 Fixture.agentsBusy eq_refl) _).
  constructor; [simpl; lia|constructor].
Defined.

(* ===================================================================== *)
(** * Elapsed times *)
(* ===================================================================== *)

Lemma holdsFrom_sound (f : Z -> bool) (n : nat) (start z : Z) :
  Elapsed.holdsFrom f n start = true ->
  start <= z < start + Z.of_nat n ->
  f z = true.
Proof.
  revert start. induction n as [|n IH]; intros start Hall Hz; [lia|].
  cbn [Elapsed.holdsFrom] in Hall. apply andb_true_iff in Hall as [Hhere Hrest].
  destruct (Z.eq_dec z start) as [->|Hne]; [exact Hhere|].
  apply (IH (start + 1)); [exact Hrest|lia].
Qed.

Lemma sameDouble_sound (a b : float) :
  Elapsed.sameDouble a b = true -> Prim2SF a = Prim2SF b.
Proof.
  unfold Elapsed.sameDouble.
  destruct (Prim2SF a) as [s|s| |s m e], (Prim2SF b) as [s'|s'| |s' m' e'];
    try discriminate; try reflexivity.
  - intros H. apply Bool.eqb_prop in H. now subst.
  - intros H. apply Bool.eqb_prop in H. now subst.
  - intros H. apply andb_true_iff in H as [H He].
    apply andb_true_iff in H as [Hs Hm].
    apply Bool.eqb_prop in Hs. apply Pos.eqb_eq in Hm. apply Z.eqb_eq in He.
    now subst.
Qed.

Lemma numberToString_same (a b : float) :
  Prim2SF a = Prim2SF b -> JS.numberToString a = JS.numberToString b.
Proof. unfold JS.numberToString. now intros ->. Qed.

(** Every whole number of milliseconds below a minute, divided by 1000
    and rounded, is the nearest whole number of seconds: checked on each
    of the 60000 values. *)
Lemma seconds_below_a_minute :
  Elapsed.holdsFrom Elapsed.secondsRounded (Z.to_nat 60000) 0 = true.
Proof. vm_compute. reflexivity. Qed.

(** The numbers 0 to 60 print as their decimal digits. *)
Lemma sixty_print :
  Elapsed.holdsFrom
    (fun k => String.eqb (JS.numberToString (JS.ofZ k)) (JS.digits k)) 61 0
  = true.
Proof. vm_compute. reflexivity. Qed.

Lemma rounded_seconds (r : Z) :
  0 <= r < 60000 ->
  JS.numberToString (JS.Math_round (JS.ofZ r / 1000)%float)
  = JS.digits ((r + 500) / 1000).
Proof.
  intros Hr.
  assert (Hround : Elapsed.secondsRounded r = true).
  { apply (holdsFrom_sound _ (Z.to_nat 60000) 0);
      [exact seconds_below_a_minute|rewrite Z2Nat.id; lia]. }
  apply sameDouble_sound, numberToString_same in Hround. rewrite Hround.
  assert (Hprint : String.eqb (JS.numberToString (JS.ofZ ((r + 500) / 1000)))
                              (JS.digits ((r + 500) / 1000)) = true).
  { apply (holdsFrom_sound
             (fun k => String.eqb (JS.numberToString (JS.ofZ k)) (JS.digits k))
             61 0); [exact sixty_print|].
    split.
    - apply Z.div_pos; lia.
    - assert ((r + 500) / 1000 <= 60); [|lia].
      apply Z.lt_succ_r, Z.div_lt_upper_bound; lia. }
  now apply String.eqb_eq in Hprint.
Qed.

(** [formatElapsed], by the time elapsed since a valid [startTime]:
    under a second (a start in the future included) it reads "<1s";
    from one second to under a minute it reads the nearest whole number
    of seconds, a half going up, so that the last half second before the
    minute reads "60s"; from a minute on, the seconds after the minutes
    are the nearest whole number of seconds of the remainder, from 0 to
    60. An invalid [startTime] reads "NaNm NaNs". *)
Theorem formatElapsed_seconds (now t : Z) :
  (now - t < 1000 -> Elapsed.formatElapsed now (JS.MkDate t) = "<1s")
  /\ (1000 <= now - t < 60000 ->
      Elapsed.formatElapsed now (JS.MkDate t)
      = JS.digits ((now - t + 500) / 1000) ++ "s")
  /\ (59500 <= now - t < 60000 ->
      Elapsed.formatElapsed now (JS.MkDate t) = "60s")
  /\ (60000 <= now - t < 2 ^ 53 ->
      Elapsed.formatElapsed now (JS.MkDate t)
      = JS.numberToString (Elapsed.Math_floor (JS.ofZ (now - t) / 60000)%float)
        ++ "m " ++ JS.digits (((now - t) mod 60000 + 500) / 1000) ++ "s"
      /\ 0 <= ((now - t) mod 60000 + 500) / 1000 <= 60)
  /\ Elapsed.formatElapsed now JS.InvalidDate = "NaNm NaNs".
Proof.
  assert (Hsec : 1000 <= now - t < 60000 ->
                 Elapsed.formatElapsed now (JS.MkDate t)
                 = JS.digits ((now - t + 500) / 1000) ++ "s").
  { intros Hd. unfold Elapsed.formatElapsed.
    cbn [Elapsed.elapsedMs JS.getTime fmap option_fmap option_map
         Elapsed.below Elapsed.number].
    destruct (Z.ltb_spec (now - t) 1000) as [?|_]; [lia|].
    destruct (Z.ltb_spec (now - t) 60000) as [_|?]; [|lia].
    rewrite rounded_seconds by lia. reflexivity. }
  split; [|split; [exact Hsec|split; [|split]]].
  - intros Hd. unfold Elapsed.formatElapsed.
    cbn [Elapsed.elapsedMs JS.getTime fmap option_fmap option_map Elapsed.below].
    destruct (Z.ltb_spec (now - t) 1000) as [_|?]; [reflexivity|lia].
  - intros Hd. rewrite Hsec by lia.
    replace ((now - t + 500) / 1000) with 60; [reflexivity|].
    apply (Z.div_unique _ _ _ (now - t + 500 - 60000)); lia.
  - intros Hd.
    assert (Hr : 0 <= (now - t) mod 60000 < 60000) by (apply Z.mod_pos_bound; lia).
    split.
    + unfold Elapsed.formatElapsed.
      cbn [Elapsed.elapsedMs JS.getTime fmap option_fmap option_map
           Elapsed.below Elapsed.number Elapsed.remainder].
      destruct (Z.ltb_spec (now - t) 1000) as [?|_]; [lia|].
      destruct (Z.ltb_spec (now - t) 60000) as [?|_]; [lia|].
      rewrite Z.rem_mod_nonneg by lia.
      rewrite rounded_seconds by exact Hr. reflexivity.
    + split; [apply Z.div_pos; lia|].
      apply Z.lt_succ_r, Z.div_lt_upper_bound; lia.
  - vm_compute. reflexivity.
Qed.

(* ===================================================================== *)
(** * The configuration file *)
(* ===================================================================== *)

Lemma panelOf_Some (entry : Json.t) (p : HudConfig.PanelId) :
  HudConfig.panelOf entry = Some p <-> entry = Json.JString (HudConfig.panelName p).
Proof.
  split.
  - destruct entry as [| | |s| |]; try discriminate.
    unfold HudConfig.panelOf, HudConfig.PANEL_IDS.
    cbn [List.find HudConfig.panelName].
    repeat match goal with
           | |- context [String.eqb ?a s] =>
               destruct (String.eqb_spec a s) as [<-|_]
           end;
      intros [= <-]; reflexivity.
  - intros ->. destruct p; reflexivity.
Qed.

Lemma elem_of_unique {A : Type} `{EqDecision A} (seen l : list A) (x : A) :
  x ∈ HudConfig.unique seen l <-> x ∈ l /\ x ∉ seen.
Proof.
  revert seen. induction l as [|y l IH]; intros seen; cbn [HudConfig.unique].
  - split; [intros Hx; inversion Hx|intros [Hx _]; inversion Hx].
  - case_bool_decide as Hy.
    + rewrite IH, elem_of_cons. split; [tauto|].
      intros [[->|Hx] Hseen]; [contradiction|tauto].
    + rewrite !elem_of_cons, IH, elem_of_cons.
      destruct (decide (x = y)) as [->|Hne]; [tauto|]. tauto.
Qed.

Lemma NoDup_unique {A : Type} `{EqDecision A} (seen l : list A) :
  NoDup (HudConfig.unique seen l).
Proof.
  revert seen. induction l as [|y l IH]; intros seen; cbn [HudConfig.unique].
  - constructor.
  - case_bool_decide as Hy; [apply IH|].
    constructor; [|apply IH].
    rewrite elem_of_unique, elem_of_cons. tauto.
Qed.

Lemma unique_snoc {A : Type} `{EqDecision A} (seen l : list A) (x : A) :
  HudConfig.unique seen (l ++ [x])
  = (HudConfig.unique seen l
     ++ if bool_decide (x ∈ seen \/ x ∈ l) then [] else [x])%list.
Proof.
  revert seen. induction l as [|y l IH]; intros seen; cbn [HudConfig.unique app].
  - rewrite (bool_decide_ext (x ∈ seen \/ x ∈ []) (x ∈ seen)).
    + case_bool_decide; reflexivity.
    + split; [intros [?|Hin]; [assumption|inversion Hin]|tauto].
  - case_bool_decide as Hy.
    + rewrite IH.
      rewrite (bool_decide_ext (x ∈ seen \/ x ∈ y :: l) (x ∈ seen \/ x ∈ l));
        [reflexivity|].
      rewrite elem_of_cons. split; [|tauto]. intros [?|[->|?]]; tauto.
    + rewrite IH. cbn [app].
      rewrite (bool_decide_ext (x ∈ seen \/ x ∈ y :: l) (x ∈ y :: seen \/ x ∈ l));
        [reflexivity|].
      rewrite !elem_of_cons. tauto.
Qed.

Lemma elem_of_panels (p : HudConfig.PanelId) : p ∈ HudConfig.PANEL_IDS.
Proof. unfold HudConfig.PANEL_IDS. destruct p; set_solver. Qed.

(** [normalizePanelList] answers exactly the arrays, and for an array
    the list it returns holds every panel named by an entry and nothing
    else, each once, so at most seven; entries that are no panel name are
    left out, an array of only such entries giving the empty list and not
    [undefined]. The order is that of the first occurrences: a further
    entry at the end of the array is added at the end of the list when it
    names a panel that is not yet in it, and changes nothing otherwise. *)
Theorem normalizePanelList_panels :
  (forall value : option Json.t,
     is_Some (HudConfig.normalizePanelList value)
     <-> exists items, value = Some (Json.JArray items))
  /\ (forall items : list Json.t,
        exists l,
          HudConfig.normalizePanelList (Some (Json.JArray items)) = Some l
          /\ NoDup l
          /\ (forall p, p ∈ l <-> Json.JString (HudConfig.panelName p) ∈ items)
          /\ (length l <= 7)%nat
          /\ forall entry,
               HudConfig.normalizePanelList (Some (Json.JArray (items ++ [entry])))
               = Some (match HudConfig.panelOf entry with
                       | Some p => if bool_decide (p ∈ l) then l else l ++ [p]
                       | None => l
                       end)%list).
Proof.
  split.
  - intros value. split.
    + destruct value as [[| | | |items|]|]; cbn; intros [l Hl];
        try discriminate. now exists items.
    + intros [items ->]. cbn. eauto.
  - intros items. eexists. split; [reflexivity|].
    assert (Hmem : forall p,
               p ∈ HudConfig.unique [] (omap HudConfig.panelOf items)
               <-> Json.JString (HudConfig.panelName p) ∈ items).
    { intros p. rewrite elem_of_unique, list_elem_of_omap. split.
      - intros [(entry & Hin & Hp) _]. apply panelOf_Some in Hp. now subst.
      - intros Hin. split; [|apply not_elem_of_nil].
        eexists. split; [exact Hin|]. now apply panelOf_Some. }
    split; [apply NoDup_unique|]. split; [exact Hmem|]. split.
    + change 7%nat with (length HudConfig.PANEL_IDS).
      apply submseteq_length, NoDup_submseteq; [apply NoDup_unique|].
      intros p _. apply elem_of_panels.
    + intros entry. cbn [HudConfig.normalizePanelList]. f_equal.
      rewrite omap_app. cbn [omap list_omap].
      destruct (HudConfig.panelOf entry) as [p|]; cbn [app].
      * rewrite unique_snoc.
        rewrite (bool_decide_ext _ (p ∈ HudConfig.unique [] (omap HudConfig.panelOf items))).
        -- case_bool_decide; [apply app_nil_r|reflexivity].
        -- rewrite elem_of_unique. split.
           ++ intros [Hnil|Hin]; [inversion Hnil|]. split; [exact Hin|apply not_elem_of_nil].
           ++ intros [Hin _]. now right.
      * now rewrite app_nil_r.
Qed.

(** Every configuration [buildHudConfig] returns is well formed: its
    panel lists hold no panel twice, its width is a number above zero
    (and so not NaN), and its pricing gives at least one of the four
    fields. *)
Theorem built_config_well_formed (raw : Json.t) (config : HudConfig.HudConfig) :
  HudConfig.buildHudConfig raw = Some config ->
  (forall l, HudConfig.panelOrder config = Some l -> NoDup l)
  /\ (forall l, HudConfig.hiddenPanels config = Some l -> NoDup l)
  /\ (forall w, HudConfig.width config = Some w -> (0 <? w)%float = true)
  /\ (forall p, HudConfig.pricing config = Some p ->
        is_Some (CostTracker.Partial.sonnet p)
        \/ is_Some (CostTracker.Partial.opus p)
        \/ is_Some (CostTracker.Partial.haiku p)
        \/ is_Some (CostTracker.Partial.lastUpdated p)).
Proof.
  intros Hbuild.
  assert (Hlist : forall value l,
             HudConfig.normalizePanelList value = Some l -> NoDup l).
  { intros [[| | | |items|]|] l; cbn; intros [= <-]. apply NoDup_unique. }
  assert (Hconfig : config =
            {| HudConfig.panelOrder :=
                 HudConfig.normalizePanelList (Json.get raw "panelOrder");
               HudConfig.hiddenPanels :=
                 HudConfig.normalizePanelList (Json.get raw "hiddenPanels");
               HudConfig.width := HudConfig.readWidth raw;
               HudConfig.pricing :=
                 HudConfig.normalizePricing (Json.get raw "pricing") |}).
  { unfold HudConfig.buildHudConfig in Hbuild.
    destruct raw; try discriminate; now injection Hbuild as <-. }
  subst config. cbn [HudConfig.panelOrder HudConfig.hiddenPanels
                     HudConfig.width HudConfig.pricing].
  split; [apply Hlist|]. split; [apply Hlist|]. split.
  - intros w. unfold HudConfig.readWidth.
    destruct (Json.get raw "width") as [[| |x| | |]|]; try discriminate.
    destruct (0 <? x)%float eqn:Hpos; [|discriminate]. now intros [= <-].
  - intros p. unfold HudConfig.normalizePricing.
    destruct (Json.get raw "pricing") as [v|]; [|discriminate].
    destruct (negb (Json.typeofObject v) || Json.isNull v); [discriminate|].
    destruct (0 <? _)%nat eqn:Hkeys; [|discriminate].
    intros [= <-]. apply Nat.ltb_lt in Hkeys.
    unfold HudConfig.keyCount in Hkeys.
    cbn [CostTracker.Partial.sonnet CostTracker.Partial.opus
         CostTracker.Partial.haiku CostTracker.Partial.lastUpdated] in *.
    destruct (HudConfig.readRates v "sonnet"); [left; eauto|].
    destruct (HudConfig.readRates v "opus"); [right; left; eauto|].
    destruct (HudConfig.readRates v "haiku"); [right; right; left; eauto|].
    destruct (HudConfig.readLastUpdated v); [right; right; right; eauto|].
    cbn in Hkeys. lia.
Qed.

Lemma built_config_well_formed_witness :
  HudConfig.buildHudConfig Fixture.config = Some Fixture.built
  /\ (forall l, HudConfig.panelOrder Fixture.built = Some l -> NoDup l)
  /\ (forall w, HudConfig.width Fixture.built = Some w -> (0 <? w)%float = true).
Proof.
  assert (H : HudConfig.buildHudConfig Fixture.config = Some Fixture.built)
    by (vm_compute; reflexivity).
  split; [exact H|].
  pose proof (built_config_well_formed Fixture.config Fixture.built H)
    as (Horder & _ & Hwidth & _).
  split; [exact Horder|exact Hwidth].
Defined.

(** What [readHudConfigWithStatus] reports, by the file: a configuration
    and an error message never come together; a configuration comes
    exactly when the file can be read and parses to a value other than
    [null]; an error comes exactly when the file exists and cannot be
    read, does not parse, or parses to [null]; a missing file gives
    neither. A file that parses to a number, a string, a boolean or an
    array is taken for a configuration without any setting. *)
Theorem config_file_outcomes (JSON_parse : string -> option Json.t)
    (file : HudConfig.File) :
  (HudConfig.data (HudConfig.readHudConfigWithStatus JSON_parse file) = None
   \/ HudConfig.error (HudConfig.readHudConfigWithStatus JSON_parse file) = None)
  /\ (is_Some (HudConfig.data (HudConfig.readHudConfigWithStatus JSON_parse file))
      <-> exists text v,
            file = HudConfig.Content text
            /\ JSON_parse text = Some v /\ v <> Json.JNull)
  /\ (is_Some (HudConfig.error (HudConfig.readHudConfigWithStatus JSON_parse file))
      <-> file = HudConfig.Unreadable
          \/ exists text,
               file = HudConfig.Content text
               /\ (JSON_parse text = None \/ JSON_parse text = Some Json.JNull))
  /\ (file = HudConfig.Missing ->
      HudConfig.readHudConfigWithStatus JSON_parse file
      = {| HudConfig.data := None; HudConfig.error := None |})
  /\ (forall text v,
        file = HudConfig.Content text ->
        JSON_parse text = Some v ->
        v <> Json.JNull ->
        (forall fields, v <> Json.JObject fields) ->
        HudConfig.readHudConfig JSON_parse file
        = Some {| HudConfig.panelOrder := None;
                  HudConfig.hiddenPanels := None;
                  HudConfig.width := None;
                  HudConfig.pricing := None |}).
Proof.
  assert (Hbuild : forall v, v <> Json.JNull ->
                             is_Some (HudConfig.buildHudConfig v)).
  { intros v Hv. destruct v; [contradiction|..]; cbn; eauto. }
  unfold HudConfig.readHudConfig.
  destruct file as [| |text]; cbn [HudConfig.readHudConfigWithStatus].
  - cbn. split; [now left|]. split.
    + split; [intros [? [=]]|intros (? & ? & [=] & _)].
    + split; [|split; [reflexivity|intros ? ? [=]]].
      split; [intros [? [=]]|intros [[=]|(? & [=] & _)]].
  - cbn. split; [now left|]. split.
    + split; [intros [? [=]]|intros (? & ? & [=] & _)].
    + split; [|split; [intros [=]|intros ? ? [=]]].
      split; [now left|eauto].
  - destruct (JSON_parse text) as [v|] eqn:Hparse; cbn [mbind option_bind].
    + destruct (decide (Json.isNull v = true)) as [Hnull|Hnull].
      * destruct v; try discriminate. cbn.
        split; [now left|]. split.
        -- split; [intros [? [=]]|].
           intros (? & v & [= <-] & Hv & Hne). congruence.
        -- split; [|split; [intros [=]|]].
           ++ split; [|eauto]. intros _. right. exists text. auto.
           ++ intros ? v [= <-] Hv Hne. congruence.
      * assert (Hv : v <> Json.JNull) by (intros ->; now apply Hnull).
        destruct (Hbuild v Hv) as [config Hconfig]. rewrite Hconfig. cbn.
        split; [now right|]. split.
        -- split; [|eauto]. intros _. exists text, v. auto.
        -- split; [|split; [intros [=]|]].
           ++ split; [intros [? [=]]|].
              intros [[=]|(? & [= <-] & [Hn|Hn])]; congruence.
           ++ intros ? v' [= <-] Hv' _ Hobject.
              assert (v' = v) as -> by congruence.
              destruct v; try contradiction; cbn in Hconfig;
                try (injection Hconfig as <-; reflexivity).
              exfalso. now apply (Hobject fields).
    + cbn. split; [now left|]. split.
      * split; [intros [? [=]]|]. intros (? & v & [= <-] & Hv & _). congruence.
      * split; [|split; [intros [=]|]].
        -- split; [|eauto]. intros _. right. exists text. auto.
        -- intros ? v [= <-] Hv. congruence.
Qed.

(** Keys that the readers do not look at change nothing: a further key
    in the configuration, in its pricing table, or in a line of the
    event stream. *)
Theorem unknown_keys_ignored (k : string) (v : Json.t) :
  (k ∉ ["panelOrder"; "hiddenPanels"; "width"; "pricing"] ->
   forall fields,
     HudConfig.buildHudConfig (Json.JObject (<[k := v]> fields))
     = HudConfig.buildHudConfig (Json.JObject fields))
  /\ (k ∉ ["sonnet"; "opus"; "haiku"; "lastUpdated"] ->
      forall fields,
        HudConfig.normalizePricing (Some (Json.JObject (<[k := v]> fields)))
        = HudConfig.normalizePricing (Some (Json.JObject fields)))
  /\ (k ∉ EventParser.keys ->
      forall raw,
        EventParser.fromRecord (<[k := v]> raw) = EventParser.fromRecord raw).
Proof.
  split; [|split]; intros Hk fields.
  - unfold HudConfig.buildHudConfig, HudConfig.readWidth.
    cbn [Json.get].
    rewrite !lookup_insert_ne by (intros ->; apply Hk; set_solver).
    reflexivity.
  - unfold HudConfig.normalizePricing, HudConfig.readRates,
      HudConfig.readLastUpdated.
    cbn [Json.get Json.typeofObject Json.isNull negb orb].
    rewrite !lookup_insert_ne by (intros ->; apply Hk; set_solver).
    reflexivity.
  - unfold EventParser.fromRecord, EventParser.orNull, EventParser.keys in *.
    rewrite !lookup_insert_ne by (intros ->; apply Hk; set_solver).
    reflexivity.
Qed.

Lemma unknown_keys_ignored_witness :
  HudConfig.buildHudConfig
    (Json.JObject (<["theme" := Json.JString "dark"]> ∅))
  = HudConfig.buildHudConfig (Json.JObject ∅)
  /\ EventParser.fromRecord
       (<["hook" := Json.JBool true]> Fixture.eventFields)
     = EventParser.fromRecord Fixture.eventFields.
Proof.
  split.
  - apply (proj1 (unknown_keys_ignored "theme" (Json.JString "dark"))).
    intros H. repeat (apply elem_of_cons in H as [H|H]; [discriminate|]).
    inversion H.
  - apply (proj2 (proj2 (unknown_keys_ignored "hook" (Json.JBool true)))).
    unfold EventParser.keys. intros H.
    repeat (apply elem_of_cons in H as [H|H]; [discriminate|]).
    inversion H.
Defined.

(** The cache of a [HudConfigReader]: while it holds a configuration and
    no more than 30 seconds have passed since that was read, [read] and
    [readWithStatus] return it without looking at the file, whatever the
    file holds by then, and leave the reader as it is; after more than 30
    seconds the file is read again. A reader that holds no configuration
    (the file was missing or could not be read) looks at the file at
    every call. *)
Theorem reader_serves_cache (r : HudConfig.Reader) :
  (forall c calls,
     HudConfig.cached r = Some c ->
     Forall (fun call => call.1 - HudConfig.lastRead r <= 30000) calls ->
     HudConfig.reads calls r = (r, replicate (length calls) (Some c)))
  /\ (forall c now disk,
        HudConfig.cached r = Some c ->
        now - HudConfig.lastRead r <= 30000 ->
        HudConfig.readWithStatus now disk r
        = (r, {| HudConfig.data := Some c;
                 HudConfig.error := HudConfig.lastError r |}))
  /\ (forall now disk,
        30000 < now - HudConfig.lastRead r ->
        HudConfig.read now disk r
        = (HudConfig.store now disk, HudConfig.data disk))
  /\ (forall calls,
        HudConfig.cached r = None ->
        Forall (fun call => HudConfig.data call.2 = None) calls ->
        (HudConfig.reads calls r).2 = replicate (length calls) None
        /\ (HudConfig.reads calls r).1
           = match last calls with
             | Some (now, disk) => HudConfig.store now disk
             | None => r
             end).
Proof.
  assert (Hfresh : forall now, now - HudConfig.lastRead r <= 30000 ->
            (HudConfig.refreshInterval <? now - HudConfig.lastRead r) = false).
  { intros now Hnow. apply Z.ltb_ge. exact Hnow. }
  split; [|split; [|split]].
  - intros c calls Hc Hcalls.
    induction Hcalls as [|[now disk] calls Hnow _ IH]; [reflexivity|].
    cbn [HudConfig.reads]. unfold HudConfig.read, HudConfig.due.
    rewrite Hc, (Hfresh now Hnow), IH. reflexivity.
  - intros c now disk Hc Hnow.
    unfold HudConfig.readWithStatus, HudConfig.due.
    rewrite Hc, (Hfresh now Hnow). reflexivity.
  - intros now disk Hnow. unfold HudConfig.read, HudConfig.due.
    destruct (HudConfig.cached r); [|reflexivity].
    unfold HudConfig.refreshInterval.
    destruct (Z.ltb_spec 30000 (now - HudConfig.lastRead r)); [reflexivity|lia].
  - intros calls Hnone Hcalls. clear Hfresh. revert r Hnone.
    induction Hcalls as [|[now disk] calls Hdisk _ IH]; intros r Hnone;
      [split; reflexivity|].
    cbn [HudConfig.reads]. unfold HudConfig.read, HudConfig.due.
    rewrite Hnone.
    specialize (IH (HudConfig.store now disk) Hdisk).
    destruct (HudConfig.reads calls (HudConfig.store now disk)) as [r2 outs].
    destruct IH as [Houts Hreader].
    cbn [fst snd] in *. split.
    + cbn [length replicate]. cbn in Hdisk. rewrite Hdisk, Houts. reflexivity.
    + rewrite Hreader. destruct calls as [|call calls']; [reflexivity|].
      change (last ((now, disk) :: call :: calls')) with (last (call :: calls')).
      destruct (last (call :: calls')) as [[? ?]|] eqn:Hlast; [reflexivity|].
      apply last_None in Hlast. discriminate.
Qed.

(* ===================================================================== *)
(** * The event stream *)
(* ===================================================================== *)

Lemma truthyString_Some (o : option string) (s : string) :
  JS.truthyString o = Some s <-> o = Some s /\ s <> EmptyString.
Proof.
  destruct o as [[|c rest]|]; cbn.
  - split; [discriminate|]. intros [[= <-] H]. contradiction.
  - split; [intros [= <-]; split; [reflexivity|discriminate]|].
    now intros [[= <-] _].
  - split; [discriminate|]. now intros [[=] _].
Qed.

Lemma readString_Some (value : option Json.t) (s : string) :
  EventParser.readString value = Some s <-> value = Some (Json.JString s).
Proof.
  destruct value as [[| | |s'| |]|]; cbn; split; try discriminate;
    intros [= <-]; reflexivity.
Qed.

(** The lines [parseHudEvent] accepts are exactly those that parse to an
    object (not an array, not [null]) in which [event] and [session] are
    strings that are not empty, [ts] is a finite number, [tool] is a
    string, [null] or absent, and [input] and [response] are objects,
    [null] or absent. *)
Theorem parseHudEvent_accepts (JSON_parse : string -> option Json.t)
    (line : string) :
  is_Some (EventParser.parseHudEvent JSON_parse line)
  <-> exists raw : gmap string Json.t,
        JSON_parse line = Some (Json.JObject raw)
        /\ (exists s, raw !! "event" = Some (Json.JString s) /\ s <> EmptyString)
        /\ (exists s, raw !! "session" = Some (Json.JString s) /\ s <> EmptyString)
        /\ (exists x, raw !! "ts" = Some (Json.JNumber x) /\ Json.isFinite x = true)
        /\ (raw !! "tool" = None \/ raw !! "tool" = Some Json.JNull
            \/ exists s, raw !! "tool" = Some (Json.JString s))
        /\ (raw !! "input" = None \/ raw !! "input" = Some Json.JNull
            \/ exists fields, raw !! "input" = Some (Json.JObject fields))
        /\ (raw !! "response" = None \/ raw !! "response" = Some Json.JNull
            \/ exists fields, raw !! "response" = Some (Json.JObject fields)).
Proof.
  unfold EventParser.parseHudEvent.
  split.
  - intros [e He].
    destruct (JSON_parse line) as [[| | | | |raw]|]; try discriminate.
    cbn [mbind option_bind EventParser.isRecord] in He.
    exists raw. split; [reflexivity|].
    unfold EventParser.fromRecord in He.
    destruct (JS.truthyString (EventParser.readString (raw !! "event")))
      as [ev|] eqn:Hev; [|discriminate].
    destruct (JS.truthyString (EventParser.readString (raw !! "session")))
      as [se|] eqn:Hse; [|discriminate].
    destruct (EventParser.readNumber (raw !! "ts")) as [x|] eqn:Hts;
      [|discriminate].
    destruct (EventParser.orNull EventParser.readStringOrNull raw "tool")
      as [tl|] eqn:Htool; [|discriminate].
    destruct (EventParser.orNull EventParser.readRecordOrNull raw "input")
      as [inp|] eqn:Hinput; [|discriminate].
    destruct (EventParser.orNull EventParser.readRecordOrNull raw "response")
      as [resp|] eqn:Hresp; [|discriminate].
    apply truthyString_Some in Hev as [Hev Hev'].
    apply truthyString_Some in Hse as [Hse Hse'].
    apply readString_Some in Hev, Hse.
    split; [eauto|]. split; [eauto|]. split.
    { unfold EventParser.readNumber in Hts.
      destruct (raw !! "ts") as [[| |y| | |]|]; try discriminate.
      destruct (Json.isFinite y) eqn:Hfin; [|discriminate].
      exists y. auto. }
    unfold EventParser.orNull in Htool, Hinput, Hresp.
    split; [|split].
    + destruct (raw !! "tool") as [[| | |s| |]|]; try discriminate; eauto.
    + destruct (raw !! "input") as [[| | | | |f]|]; try discriminate; eauto.
    + destruct (raw !! "response") as [[| | | | |f]|]; try discriminate; eauto.
  - intros (raw & -> & (ev & Hev & Hev') & (se & Hse & Hse') & (x & Hts & Hfin)
            & Htool & Hinput & Hresp).
    cbn [mbind option_bind EventParser.isRecord].
    unfold EventParser.fromRecord.
    rewrite Hev, Hse, Hts. cbn [EventParser.readString EventParser.readNumber].
    rewrite Hfin.
    destruct ev as [|c ev]; [contradiction|].
    destruct se as [|c' se]; [contradiction|].
    cbn [JS.truthyString mbind option_bind].
    unfold EventParser.orNull.
    destruct Htool as [->|[->|[s ->]]];
      destruct Hinput as [->|[->|[f ->]]];
      destruct Hresp as [->|[->|[f' ->]]]; cbn; eauto.
Qed.

(** What a parsed event holds: [event] and [session] are the strings of
    the line and not empty, [ts] is its finite number; [tool], [input]
    and [response] are [null] exactly when the line has them absent or
    [null]; [toolUseId] is kept as it is when it is a string, the empty
    one included, and is undefined otherwise; [permissionMode],
    [transcriptPath], [cwd] and [prompt] are present only as strings
    that are not empty. *)
Theorem parsed_event_fields (raw : gmap string Json.t)
    (e : EventParser.HudEvent) :
  EventParser.fromRecord raw = Some e ->
  (raw !! "event" = Some (Json.JString (EventParser.event e))
   /\ EventParser.event e <> EmptyString)
  /\ (raw !! "session" = Some (Json.JString (EventParser.session e))
      /\ EventParser.session e <> EmptyString)
  /\ (raw !! "ts" = Some (Json.JNumber (EventParser.ts e))
      /\ Json.isFinite (EventParser.ts e) = true)
  /\ (forall s, EventParser.tool e = Some s
                <-> raw !! "tool" = Some (Json.JString s))
  /\ (forall f, EventParser.input e = Some f
                <-> raw !! "input" = Some (Json.JObject f))
  /\ (forall f, EventParser.response e = Some f
                <-> raw !! "response" = Some (Json.JObject f))
  /\ (forall s, EventParser.toolUseId e = Some s
                <-> raw !! "toolUseId" = Some (Json.JString s))
  /\ (forall s, EventParser.permissionMode e = Some s
                <-> raw !! "permissionMode" = Some (Json.JString s)
                    /\ s <> EmptyString)
  /\ (forall s, EventParser.transcriptPath e = Some s
                <-> raw !! "transcriptPath" = Some (Json.JString s)
                    /\ s <> EmptyString)
  /\ (forall s, EventParser.cwd e = Some s
                <-> raw !! "cwd" = Some (Json.JString s) /\ s <> EmptyString)
  /\ (forall s, EventParser.prompt e = Some s
                <-> raw !! "prompt" = Some (Json.JString s) /\ s <> EmptyString).
Proof.
  intros He. unfold EventParser.fromRecord in He.
  destruct (JS.truthyString (EventParser.readString (raw !! "event")))
    as [ev|] eqn:Hev; [|discriminate].
  destruct (JS.truthyString (EventParser.readString (raw !! "session")))
    as [se|] eqn:Hse; [|discriminate].
  destruct (EventParser.readNumber (raw !! "ts")) as [x|] eqn:Hts;
    [|discriminate].
  destruct (EventParser.orNull EventParser.readStringOrNull raw "tool")
    as [tl|] eqn:Htool; [|discriminate].
  destruct (EventParser.orNull EventParser.readRecordOrNull raw "input")
    as [inp|] eqn:Hinput; [|discriminate].
  destruct (EventParser.orNull EventParser.readRecordOrNull raw "response")
    as [resp|] eqn:Hresp; [|discriminate].
  cbn [mbind option_bind] in He. injection He as <-.
  cbn [EventParser.event EventParser.session EventParser.ts EventParser.tool
       EventParser.input EventParser.response EventParser.toolUseId
       EventParser.permissionMode EventParser.transcriptPath
       EventParser.cwd EventParser.prompt].
  apply truthyString_Some in Hev as [Hev Hev'].
  apply truthyString_Some in Hse as [Hse Hse'].
  apply readString_Some in Hev, Hse.
  assert (Hoptional : forall key s,
            JS.truthyString (EventParser.readString (raw !! key)) = Some s
            <-> raw !! key = Some (Json.JString s) /\ s <> EmptyString).
  { intros key s. rewrite truthyString_Some, readString_Some. reflexivity. }
  unfold EventParser.orNull in Htool, Hinput, Hresp.
  split; [auto|]. split; [auto|]. split.
  { unfold EventParser.readNumber in Hts.
    destruct (raw !! "ts") as [[| |y| | |]|]; try discriminate.
    destruct (Json.isFinite y) eqn:Hfin; [|discriminate].
    injection Hts as <-. auto. }
  split.
  { intros s. destruct (raw !! "tool") as [[| | |s'| |]|]; try discriminate;
      cbn in Htool; injection Htool as <-; split; try discriminate;
      intros [= <-]; reflexivity. }
  split.
  { intros f. destruct (raw !! "input") as [[| | | | |f']|]; try discriminate;
      cbn in Hinput; injection Hinput as <-; split; try discriminate;
      intros [= <-]; reflexivity. }
  split.
  { intros f. destruct (raw !! "response") as [[| | | | |f']|]; try discriminate;
      cbn in Hresp; injection Hresp as <-; split; try discriminate;
      intros [= <-]; reflexivity. }
  split; [intros s; apply readString_Some|].
  split; [intros s; apply Hoptional|].
  split; [intros s; apply Hoptional|].
  split; intros s; apply Hoptional.
Qed.

Lemma parsed_event_fields_witness :
  EventParser.fromRecord Fixture.eventFields = Some Fixture.parsed
  /\ EventParser.event Fixture.parsed <> EmptyString
  /\ Json.isFinite (EventParser.ts Fixture.parsed) = true
  /\ (Fixture.eventFields !! "toolUseId" = Some (Json.JString EmptyString)
      -> EventParser.toolUseId Fixture.parsed = Some EmptyString)
  /\ EventParser.cwd Fixture.parsed <> Some EmptyString.
Proof.
  assert (H : EventParser.fromRecord Fixture.eventFields = Some Fixture.parsed)
    by (vm_compute; reflexivity).
  split; [exact H|].
  pose proof (parsed_event_fields Fixture.eventFields Fixture.parsed H)
    as ((_ & Hevent) & _ & (_ & Hts) & _ & _ & _ & Hid & _ & _ & Hcwd & _).
  split; [exact Hevent|]. split; [exact Hts|]. split.
  - intros Hraw. apply Hid. exact Hraw.
  - intros Hempty. apply Hcwd in Hempty as [_ Hne]. now apply Hne.
Defined.

(* ===================================================================== *)
(** * The printed lines *)
(* ===================================================================== *)






(* ===================================================================== *)
(** * States that come with a start time *)
(* ===================================================================== *)

Lemma spinner_getToolState_running (t : ToolEntry.t) :
  Spinner.getToolState t
  ∈ [Spinner.reading; Spinner.writing; Spinner.searching; Spinner.bash;
     Spinner.fetch; Spinner.agent; Spinner.thinking].
Proof.
  unfold Spinner.getToolState. cbv zeta.
  repeat match goal with
         | |- context [if ?b then _ else _] => destruct b
         end; set_solver.
Qed.

Lemma tamagotchi_getToolState_running (t : ToolEntry.t) :
  Tamagotchi.getToolState t
  ∈ [Tamagotchi.reading; Tamagotchi.writing; Tamagotchi.searching;
     Tamagotchi.bash; Tamagotchi.fetch; Tamagotchi.agent; Tamagotchi.thinking].
Proof.
  unfold Tamagotchi.getToolState. cbv zeta.
  repeat match goal with
         | |- context [if ?b then _ else _] => destruct b
         end; set_solver.
Qed.

(** A result of [detectActivityState] that carries a start time has the
    state of a running agent or tool: [agent], [reading], [writing],
    [searching], [bash], [fetch] or [thinking]. So it is never [idle]
    or [success], the two states for which [renderAnimationLine] of
    unnamed/part_005 would leave the spinner out. *)
Theorem start_time_states (now : Z) (ctx : RenderContext) :
  (Spinner.startTime (Spinner.detectActivityState now ctx) <> None ->
   Spinner.state (Spinner.detectActivityState now ctx)
   ∈ [Spinner.reading; Spinner.writing; Spinner.searching; Spinner.bash;
      Spinner.fetch; Spinner.agent; Spinner.thinking]
   /\ Spinner.state (Spinner.detectActivityState now ctx) <> Spinner.idle
   /\ Spinner.state (Spinner.detectActivityState now ctx) <> Spinner.success)
  /\ (Tamagotchi.startTime (Tamagotchi.detectActivityState now ctx) <> None ->
      Tamagotchi.state (Tamagotchi.detectActivityState now ctx)
      ∈ [Tamagotchi.reading; Tamagotchi.writing; Tamagotchi.searching;
         Tamagotchi.bash; Tamagotchi.fetch; Tamagotchi.agent;
         Tamagotchi.thinking]).
Proof.
  split.
  - intros Hstart.
    assert (Hin : Spinner.state (Spinner.detectActivityState now ctx)
                  ∈ [Spinner.reading; Spinner.writing; Spinner.searching;
                     Spinner.bash; Spinner.fetch; Spinner.agent;
                     Spinner.thinking]).
    { revert Hstart. unfold Spinner.detectActivityState. cbv zeta.
      destruct (90 <=? getContextPercent ctx)%float;
        [intros H; contradiction H; reflexivity|].
      destruct (List.find (agentHas running) _); [intros _; set_solver|].
      destruct (last (List.filter (toolHas running) _)) as [t|];
        [intros _; apply spinner_getToolState_running|].
      intros H. contradiction H.
      repeat match goal with
             | |- context [if ?b then _ else _] => destruct b
             | |- context [match ?o with Some _ => _ | None => _ end] => destruct o
             end; reflexivity. }
    split; [exact Hin|].
    split; intros Heq; rewrite Heq in Hin;
      repeat (apply elem_of_cons in Hin as [Hin|Hin]; [discriminate|]);
      inversion Hin.
  - unfold Tamagotchi.detectActivityState. cbv zeta.
    destruct (90 <=? getContextPercent ctx)%float;
      [intros H; contradiction H; reflexivity|].
    destruct (List.find (agentHas running) _); [intros _; set_solver|].
    destruct (last (List.filter (toolHas running) _)) as [t|];
      [intros _; apply tamagotchi_getToolState_running|].
    intros H. contradiction H.
    destruct (recentCompletion now 3000 _); [reflexivity|].
    apply tamagotchi_later_rules_no_start.
Qed.
